(** * file-ops: configuration store, upload directory and OnlyOffice handlers

    A shallow embedding of [config.py] (class [Config]) and of the request
    handlers of [main.py].  Python values are the JSON-shaped values the
    program manipulates; library calls ([int], [float], [json], [jwt],
    [str]) are the fields of a runtime interface, so that every theorem holds
    for whatever the libraries answer; a reference runtime at the end of the
    definitions makes the handlers executable on concrete inputs. *)

From Stdlib Require Import ZArith QArith_base Lia Ascii String List Bool.
From Stdlib Require Import PrimFloat FloatOps SpecFloat.
From Stdlib Require Import DecimalString DecimalZ.
From stdpp Require Import base option list gmap strings.

Set Warnings "-register-all".
Local Open Scope Z_scope.

(** ** Python values *)

(** The values that flow through the program: what [json.load] returns, what
    [os.getenv] values are coerced to, what the handlers build.  A [dict]
    keeps its insertion order (which is what [json.dumps] prints);
    keys are strings. *)
Inductive pyval : Type :=
| VNone
| VBool (b : bool)
| VInt (n : Z)
| VFloat (f : float)
| VStr (s : string)
| VList (items : list pyval)
| VDict (fields : list (string * pyval)).

Abbreviation pydict := (list (string * pyval)).

(** [k in d], [d[k]] and [d[k] = v] on a dictionary. *)
Fixpoint dict_get (k : string) (d : pydict) : option pyval :=
  match d with
  | [] => None
  | (k', v) :: d' => if decide (k = k') then Some v else dict_get k d'
  end.

Definition dict_has (k : string) (d : pydict) : bool :=
  match dict_get k d with Some _ => true | None => false end.

Fixpoint dict_set (k : string) (v : pyval) (d : pydict) : pydict :=
  match d with
  | [] => [(k, v)]
  | (k', v') :: d' =>
      if decide (k = k') then (k, v) :: d' else (k', v') :: dict_set k v d'
  end.

(** Truth value of an object, as tested by [if x:], [x and y], [not x]. *)
Definition truthy (v : pyval) : bool :=
  match v with
  | VNone => false
  | VBool b => b
  | VInt n => negb (n =? 0)
  | VFloat f => negb (PrimFloat.eqb f 0%float)
  | VStr s => negb (bool_decide (s = ""))
  | VList l => match l with [] => false | _ => true end
  | VDict d => match d with [] => false | _ => true end
  end.

(** [v == 2] for the integer literal [2]: an [int] 2 or a [float] 2.0;
    [True == 1] and [False == 0], so no [bool] equals 2. *)
Definition eq_two (v : pyval) : bool :=
  match v with
  | VInt n => n =? 2
  | VFloat f => PrimFloat.eqb f 2%float
  | _ => false
  end.

(** ** Exceptions and results *)

Inductive exn : Type :=
| HTTPException (status_code : Z) (detail : string)
| TypeError
| KeyError (key : string)
| JSONDecodeError
| InvalidTokenError
| FileNotFoundError
| OSError
| OtherError (what : string).

Inductive result (A : Type) : Type :=
| Ok (a : A)
| Raise (e : exn).
Arguments Ok {A} a.
Arguments Raise {A} e.

Definition rbind {A B} (r : result A) (k : A → result B) : result B :=
  match r with Ok a => k a | Raise e => Raise e end.

Declare Scope py_scope.
Delimit Scope py_scope with py.
Notation "x <- c ;; k" := (rbind c (fun x => k))
  (at level 100, c at next level, right associativity) : py_scope.
Local Open Scope py_scope.

(** ** The [str] methods the program calls, on ASCII text *)

Module Str.

Definition lower_char (c : ascii) : ascii :=
  let n := nat_of_ascii c in
  if ((65 <=? n) && (n <=? 90))%nat then ascii_of_nat (n + 32) else c.

Definition upper_char (c : ascii) : ascii :=
  let n := nat_of_ascii c in
  if ((97 <=? n) && (n <=? 122))%nat then ascii_of_nat (n - 32) else c.

Fixpoint map_chars (f : ascii → ascii) (s : string) : string :=
  match s with
  | "" => ""
  | String c s' => String (f c) (map_chars f s')
  end.

(** [s.lower()] and [s.upper()] *)
Definition lower : string → string := map_chars lower_char.
Definition upper : string → string := map_chars upper_char.

(** [s.replace(a, b)] for one-character [a] and [b] *)
Definition replace (a b : ascii) : string → string :=
  map_chars (fun c => if decide (c = a) then b else c).

(** [s.split(sep)] for a one-character separator: never the empty list *)
Fixpoint split (sep : ascii) (s : string) : list string :=
  match s with
  | "" => [""]
  | String c s' =>
      if decide (c = sep) then "" :: split sep s'
      else match split sep s' with
           | h :: t => String c h :: t
           | [] => [String c ""]
           end
  end.

(** [c in s] for a character [c] *)
Fixpoint contains_char (c : ascii) (s : string) : bool :=
  match s with
  | "" => false
  | String c' s' => bool_decide (c = c') || contains_char c s'
  end.

(** [s.startswith(p)] and [s.endswith(p)] *)
Definition startswith (p s : string) : bool := String.prefix p s.
Definition endswith (p s : string) : bool :=
  String.prefix (String.rev p) (String.rev s).

(** [p in s] for strings: [p] occurs somewhere in [s] *)
Fixpoint contains (p s : string) : bool :=
  String.prefix p s ||
  match s with
  | "" => false
  | String _ s' => contains p s'
  end.

(** [s[1:]] *)
Definition drop1 (s : string) : string :=
  match s with "" => "" | String _ s' => s' end.

(** [str(n)] for an [int] *)
Definition of_Z (n : Z) : string := NilZero.string_of_int (Z.to_int n).

(** [s.isdigit()]: not empty and digits only *)
Definition is_digit_char (c : ascii) : bool :=
  let n := nat_of_ascii c in ((48 <=? n) && (n <=? 57))%nat.

Fixpoint all_digits (s : string) : bool :=
  match s with
  | "" => true
  | String c s' => is_digit_char c && all_digits s'
  end.

Definition isdigit (s : string) : bool :=
  match s with "" => false | _ => all_digits s end.

(** [s.replace(a, '')] for a one-character [a] *)
Fixpoint remove_char (a : ascii) (s : string) : string :=
  match s with
  | "" => ""
  | String c s' =>
      if decide (c = a) then remove_char a s' else String c (remove_char a s')
  end.

End Str.

(** ** The library calls the program relies on *)

(** Each field is one library function at the type the program uses it.
    [None] is an exception: [ValueError] for [int] and [float]; for
    [json.loads] the exception is [json_loads_error], which is
    [json.JSONDecodeError] on malformed text and may be another one
    ([ValueError] for an integer literal beyond the digit limit,
    [RecursionError] for deep nesting). *)
Class PyRuntime : Type := {
  (** [int(s)] *)
  py_int : string → option Z;
  (** [float(s)] *)
  py_float : string → option float;
  (** [json.loads(s)] *)
  json_loads : string → option pyval;
  (** the exception [json.loads(s)] raises when it returns nothing *)
  json_loads_error : string → exn;
  (** [json.dumps(v, indent=2, ensure_ascii=b)] *)
  json_dumps : bool → pyval → string;
  (** [str(v)], as an f-string formats [v] *)
  py_str : pyval → string;
  (** [a < b], [None] when the operands are not comparable ([TypeError]) *)
  py_lt : pyval → pyval → option bool;
  (** [jwt.encode(payload, key, algorithm="HS256")] *)
  jwt_encode : pyval → pyval → result string;
  (** [jwt.decode(token, key, algorithms=["HS256"])] *)
  jwt_decode : pyval → pyval → result pyval;
  (** [str(e)] for an exception [e] *)
  exn_str : exn → string;
}.

(** ** Subscripting and membership with a string key *)

(** [k in c]: key membership for a [dict], substring for a [str], an
    element equal to [k] for a [list]; the other types are not iterable. *)
Definition py_contains (c : pyval) (k : string) : result bool :=
  match c with
  | VDict d => Ok (dict_has k d)
  | VStr s => Ok (Str.contains k s)
  | VList l =>
      Ok (existsb (fun x => match x with
                            | VStr s => bool_decide (s = k)
                            | _ => false
                            end) l)
  | _ => Raise TypeError
  end.

(** [c[k]]: only a [dict] is subscriptable by a string. *)
Definition py_getitem (c : pyval) (k : string) : result pyval :=
  match c with
  | VDict d =>
      match dict_get k d with
      | Some v => Ok v
      | None => Raise (KeyError k)
      end
  | _ => Raise TypeError
  end.

(** [c[k] = v]: only a [dict] accepts a string key. *)
Definition py_setitem (c : pyval) (k : string) (v : pyval) : result pyval :=
  match c with
  | VDict d => Ok (VDict (dict_set k v d))
  | _ => Raise TypeError
  end.

(** ** config.py *)

(** The file system as [Config] sees it: text files by path, some of which
    cannot be opened for writing. *)
Record disk : Type := Disk {
  files : gmap string string;
  readonly : gset string;
}.

Definition path_exists (d : disk) (p : string) : bool :=
  bool_decide (is_Some (files d !! p)).

Definition read_text (d : disk) (p : string) : result string :=
  match files d !! p with
  | Some text => Ok text
  | None => Raise FileNotFoundError
  end.

Definition write_text (d : disk) (p : string) (text : string) : result disk :=
  if decide (p ∈ readonly d) then Raise OSError
  else Ok (Disk (<[p := text]> (files d)) (readonly d)).

Module Config.
Section WithRuntime.
Context `{PyRuntime}.

Record t : Type := Make {
  config_file : string;
  _config : pyval;
}.

Definition _get_default_config : pyval :=
  VDict [
    ("server", VDict [
       ("host", VStr "10.0.51.143");
       ("port", VInt 8000);
       ("debug", VBool false)]);
    ("onlyoffice", VDict [
       ("server_url", VStr "http://10.0.51.143:8080");
       ("secret", VStr "wIUxuAv0mXxom895nEGPKG3Bw3hm");
       ("api_js_url",
        VStr "http://10.0.51.143:8080/web-apps/apps/api/documents/api.js");
       ("jwt_enabled", VBool true);
       ("allow_private_ip", VBool true);
       ("allow_meta_ip", VBool true);
       ("use_unauthorized_storage", VBool true)]);
    ("storage", VDict [
       ("upload_directory", VStr "uploads");
       ("max_file_size", VInt 104857600);
       ("allowed_extensions",
        VList [VStr ".docx"; VStr ".xlsx"; VStr ".pptx"; VStr ".doc";
               VStr ".xls"; VStr ".ppt"; VStr ".txt"; VStr ".pdf"])]);
    ("security", VDict [
       ("cors_origins", VList [VStr "*"]);
       ("cors_credentials", VBool true);
       ("cors_methods", VList [VStr "*"]);
       ("cors_headers", VList [VStr "*"])]);
    ("ui", VDict [
       ("language", VStr "zh-CN");
       ("title", VStr "OnlyOffice Document Editor");
       ("subtitle", VStr "在线文档编辑和协作平台");
       ("theme", VStr "default")]);
    ("editor", VDict [
       ("default_user_id", VStr "user1");
       ("default_user_name", VStr "User");
       ("auto_save", VBool true);
       ("collaborative", VBool true);
       ("comments", VBool true);
       ("download", VBool true);
       ("print", VBool true)]);
    ("network", VDict [
       ("timeout", VInt 30);
       ("retry_attempts", VInt 3);
       ("connection_check_interval", VInt 5000)])
  ].

(** [save_config]: a failure to write is printed, never raised. *)
Definition save_config (self : t) (d : disk) : disk :=
  match write_text d (config_file self) (json_dumps false (_config self)) with
  | Ok d' => d'
  | Raise _ => d
  end.

(** [load_config]: the file's tree when it exists and parses, the default
    tree otherwise; the default tree is saved when the file is absent. *)
Definition load_config (self : t) (d : disk) : t * disk :=
  if path_exists d (config_file self) then
    match (text <- read_text d (config_file self) ;;
           match json_loads text with
           | Some v => Ok v
           | None => Raise JSONDecodeError
           end) with
    | Ok v => (Make (config_file self) v, d)
    | Raise _ => (Make (config_file self) _get_default_config, d)
    end
  else
    let self' := Make (config_file self) _get_default_config in
    (self', save_config self' d).

(** [Config(config_file)] *)
Definition init (config_file : string) (d : disk) : t * disk :=
  load_config (Make config_file (VDict [])) d.

(** [_convert_env_value] with what escapes it.  [int] and [float] raise
    [ValueError], which is caught; [json.loads] is called under
    [except json.JSONDecodeError], so the text is returned when it raises
    that, and any other exception of [json.loads] leaves the function. *)
Definition _convert_env_value_raising (value : string) : result pyval :=
  if bool_decide (Str.lower value ∈ ["true"; "false"]) then
    Ok (VBool (bool_decide (Str.lower value = "true")))
  else
    match (if Str.contains_char "." value
           then VFloat <$> py_float value
           else VInt <$> py_int value) with
    | Some number => Ok number
    | None =>
        if Str.startswith "[" value || Str.startswith "{" value then
          match json_loads value with
          | Some parsed => Ok parsed
          | None =>
              match json_loads_error value with
              | JSONDecodeError => Ok (VStr value)
              | e => Raise e
              end
          end
        else Ok (VStr value)
    end.

(** [_convert_env_value], the value returned: what
    [_convert_env_value_raising] returns wherever it returns, which is on
    every text for which [json.loads] returns or raises
    [json.JSONDecodeError]. *)
Definition _convert_env_value (value : string) : pyval :=
  if bool_decide (Str.lower value ∈ ["true"; "false"]) then
    VBool (bool_decide (Str.lower value = "true"))
  else
    match (if Str.contains_char "." value
           then VFloat <$> py_float value
           else VInt <$> py_int value) with
    | Some number => number
    | None =>
        if Str.startswith "[" value || Str.startswith "{" value then
          match json_loads value with
          | Some parsed => parsed
          | None => VStr value
          end
        else VStr value
    end.

(** The loop of [get]: follow [keys] from [value], [default] as soon as
    the current value is not a dictionary holding the key. *)
Fixpoint lookup_path (keys : list string) (value default : pyval) : pyval :=
  match keys with
  | [] => value
  | k :: keys' =>
      match value with
      | VDict d =>
          match dict_get k d with
          | Some value' => lookup_path keys' value' default
          | None => default
          end
      | _ => default
      end
  end.

Definition env_key (key : string) : string :=
  Str.replace "." "_" (Str.upper key).

(** [get(key, default)]; [env] is [os.environ]. *)
Definition get (env : gmap string string) (self : t)
    (key : string) (default : pyval) : pyval :=
  match env !! env_key key with
  | Some env_value => _convert_env_value env_value
  | None => lookup_path (Str.split "." key) (_config self) default
  end.

(** The loop and the final assignment of [set].  Python mutates the
    dictionaries in place and [config = config[k]] aliases the child, so
    the functional version stores the updated child back under [k].  When
    a step raises, Python has changed nothing: a key is created only in a
    dictionary, and the empty dictionary created accepts every later
    step (lemma [set_path_fresh]). *)
Fixpoint set_path (init : list string) (last_key : string)
    (value config : pyval) : result pyval :=
  match init with
  | [] => py_setitem config last_key value
  | k :: init' =>
      present <- py_contains config k ;;
      config1 <- (if present then Ok config
                  else py_setitem config k (VDict [])) ;;
      child <- py_getitem config1 k ;;
      child' <- set_path init' last_key value child ;;
      py_setitem config1 k child'
  end.

(** [set(key, value)] *)
Definition set (self : t) (key : string) (value : pyval) : result t :=
  let keys := Str.split "." key in
  tree <- set_path (removelast keys) (List.last keys "") value
            (_config self) ;;
  Ok (Make (config_file self) tree).

(** The typed accessors used by [main.py]. *)
Definition server_host env self : pyval :=
  get env self "server.host" (VStr "10.0.51.143").
Definition server_port env self : pyval :=
  get env self "server.port" (VInt 8000).
Definition server_url env self : string :=
  "http://" +:+ py_str (server_host env self) +:+ ":"
    +:+ py_str (server_port env self).
Definition onlyoffice_secret env self : pyval :=
  get env self "onlyoffice.secret" (VStr "wIUxuAv0mXxom895nEGPKG3Bw3hm").
Definition onlyoffice_server_url env self : pyval :=
  get env self "onlyoffice.server_url" (VStr "http://10.0.51.143:8080").
Definition onlyoffice_api_js_url env self : pyval :=
  get env self "onlyoffice.api_js_url"
    (VStr (py_str (onlyoffice_server_url env self)
             +:+ "/web-apps/apps/api/documents/api.js")).
Definition upload_directory env self : pyval :=
  get env self "storage.upload_directory" (VStr "uploads").
Definition allowed_extensions env self : pyval :=
  get env self "storage.allowed_extensions"
    (VList [VStr ".docx"; VStr ".xlsx"; VStr ".pptx"; VStr ".doc";
            VStr ".xls"; VStr ".ppt"; VStr ".txt"; VStr ".pdf"]).

(** [reload_config()]: the module's instance loads again. *)
Definition reload_config (self : t) (d : disk) : t * disk :=
  load_config self d.

End WithRuntime.
End Config.

(** ** main.py *)

(** [Path(p).name] and [Path(p).suffix] (pathlib, POSIX flavour): the name is
    the last component that is neither empty nor a single dot; the suffix
    starts at the last dot of the name unless that dot is its first or its
    last character. *)
Definition path_name (p : string) : string :=
  List.last
    (List.filter (fun c => negb (bool_decide (c = "") || bool_decide (c = ".")))
       (Str.split "/" p)) "".

Fixpoint rfind_char (c : ascii) (s : string) : option nat :=
  match s with
  | "" => None
  | String c' s' =>
      match rfind_char c s' with
      | Some i => Some (S i)
      | None => if decide (c = c') then Some 0%nat else None
      end
  end.

Definition path_suffix (p : string) : string :=
  let name := path_name p in
  match rfind_char "." name with
  | Some i =>
      if ((0 <? i) && (i <? String.length name - 1))%nat
      then String.substring i (String.length name - i) name
      else ""
  | None => ""
  end.

(** Handlers that write run in a state-and-exception monad over the upload
    directory [UPLOAD_DIR], a flat map from entry name to content: what was
    written before an exception stays written.  [UPLOAD_DIR / name] is the
    entry [name] for a plain name (not empty, no slash, neither [.] nor
    [..]), which is what [upload_file] records; other names leave the
    directory or denote it, and are outside this map. *)
Abbreviation updir := (gmap string string).

Definition io (A : Type) : Type := updir → result A * updir.

Definition io_ret {A} (a : A) : io A := fun dir => (Ok a, dir).
Definition io_raise {A} (e : exn) : io A := fun dir => (Raise e, dir).
Definition io_lift {A} (r : result A) : io A := fun dir => (r, dir).
Definition io_bind {A B} (m : io A) (k : A → io B) : io B :=
  fun dir =>
    match m dir with
    | (Ok a, dir') => k a dir'
    | (Raise e, dir') => (Raise e, dir')
    end.

(** [(UPLOAD_DIR / name).exists()], reading and writing an entry. *)
Definition io_exists (name : string) : io bool :=
  fun dir => (Ok (bool_decide (is_Some (dir !! name))), dir).
Definition io_read (name : string) : io string :=
  fun dir =>
    match dir !! name with
    | Some content => (Ok content, dir)
    | None => (Raise FileNotFoundError, dir)
    end.
Definition io_write (name content : string) : io unit :=
  fun dir => (Ok tt, <[name := content]> dir).

(** [(UPLOAD_DIR / name).unlink()] *)
Definition io_unlink (name : string) : io unit :=
  fun dir =>
    match dir !! name with
    | Some _ => (Ok tt, delete name dir)
    | None => (Raise FileNotFoundError, dir)
    end.

Declare Scope io_scope.
Delimit Scope io_scope with io.
Notation "x <~ c ;; k" := (io_bind c (fun x => k))
  (at level 100, c at next level, right associativity) : io_scope.

Module Main.
Section WithRuntime.
Context `{PyRuntime}.

(** The process environment and the [config] singleton. *)
Variable env : gmap string string.
Variable config : Config.t.

Definition loads (content : string) : result pyval :=
  match json_loads content with
  | Some v => Ok v
  | None => Raise (json_loads_error content)
  end.

(** [generate_jwt_token] and [verify_jwt_token] *)
Definition generate_jwt_token (payload : pyval) : result string :=
  jwt_encode payload (Config.onlyoffice_secret env config).

Definition verify_jwt_token (token : pyval) : result pyval :=
  match jwt_decode token (Config.onlyoffice_secret env config) with
  | Ok claims => Ok claims
  | Raise InvalidTokenError => Raise (HTTPException 401 "Invalid token")
  | Raise e => Raise e
  end.

(** [upload_file]; [file_id] is the outcome of [str(uuid.uuid4())] and
    [now] that of [datetime.now().isoformat()]. *)
Definition upload_file (file_id now : string)
    (filename : option string) (body : string) : io pyval :=
  (match filename with
   | None | Some "" => io_raise (HTTPException 400 "No file selected")
   | Some filename =>
       let file_extension := path_suffix filename in
       let stored_filename := file_id +:+ file_extension in
       _ <~ io_write stored_filename body ;;
       let metadata := VDict [
         ("id", VStr file_id);
         ("original_name", VStr filename);
         ("stored_name", VStr stored_filename);
         ("upload_time", VStr now);
         ("size", VInt (Z.of_nat (String.length body)))] in
       _ <~ io_write (file_id +:+ ".json") (json_dumps true metadata) ;;
       io_ret (VDict [("message", VStr "File uploaded successfully");
                      ("file_id", VStr file_id)])
   end)%io.

(** [UPLOAD_DIR.glob("*.json")], in the order the directory yields. *)
Definition glob_json (dir : updir) : list string :=
  List.filter (Str.endswith ".json") (fst <$> map_to_list dir).

(** One iteration of the loop of [list_files]. *)
Definition file_summary (content : string) : result pyval :=
  metadata <- loads content ;;
  id <- py_getitem metadata "id" ;;
  name <- py_getitem metadata "original_name" ;;
  upload_time <- py_getitem metadata "upload_time" ;;
  size <- py_getitem metadata "size" ;;
  Ok (VDict [("id", id); ("name", name);
             ("upload_time", upload_time); ("size", size)]).

Fixpoint list_loop (dir : updir) (names : list string)
    (files : list pyval) : result (list pyval) :=
  match names with
  | [] => Ok files
  | metadata_file :: names' =>
      content <- match dir !! metadata_file with
                 | Some content => Ok content
                 | None => Raise FileNotFoundError
                 end ;;
      summary <- file_summary content ;;
      list_loop dir names' (files ++ [summary])
  end.

(** [sorted(files, key=lambda x: x["upload_time"], reverse=True)] as a
    stable insertion into descending order, comparing keys with [<]: the
    order Python's sort produces whenever [<] is a total preorder on the
    keys, equal keys staying in their original order. *)
Fixpoint insert_desc (x : pyval) (sorted : list pyval)
    : result (list pyval) :=
  match sorted with
  | [] => Ok [x]
  | y :: rest =>
      ky <- py_getitem y "upload_time" ;;
      kx <- py_getitem x "upload_time" ;;
      match py_lt ky kx with
      | None => Raise TypeError
      | Some true => Ok (x :: y :: rest)
      | Some false => rest' <- insert_desc x rest ;; Ok (y :: rest')
      end
  end.

Fixpoint sorted_desc (files : list pyval) (acc : list pyval)
    : result (list pyval) :=
  match files with
  | [] => Ok acc
  | x :: files' => acc' <- insert_desc x acc ;; sorted_desc files' acc'
  end.

(** [list_files] *)
Definition list_files (dir : updir) : result (list pyval) :=
  files <- list_loop dir (glob_json dir) [] ;;
  sorted_desc files [].

(** The part [get_editor_config] and [get_preview_config] share: the
    sidecar of [file_id], read and parsed. *)
Definition read_metadata (dir : updir) (file_id : string) : result pyval :=
  match dir !! (file_id +:+ ".json") with
  | None => Raise (HTTPException 404 "File not found")
  | Some content => loads content
  end.

(** [Path(v).suffix.lower()]: [Path] accepts a string only. *)
Definition suffix_lower (v : pyval) : result string :=
  match v with
  | VStr s => Ok (Str.lower (path_suffix s))
  | _ => Raise TypeError
  end.

Definition document_type_of (file_extension : string) : string :=
  if bool_decide (file_extension ∈ [".xlsx"; ".xls"]) then "cell"
  else if bool_decide (file_extension ∈ [".pptx"; ".ppt"]) then "slide"
  else "word".

(** [int(time.time())]: the clock reading is a finite number of seconds,
    truncated towards zero. *)
Definition epoch_seconds (t : Q) : Z := Z.quot (Qnum t) (Z.pos (Qden t)).

(** [secret[:10]] inside the debug print: strings and lists can be sliced. *)
Definition slice10 (v : pyval) : result unit :=
  match v with
  | VStr _ | VList _ => Ok tt
  | _ => Raise TypeError
  end.

(** The signing step both builders end with. *)
Definition sign_config (cfg : pydict) : result pyval :=
  if truthy (Config.onlyoffice_secret env config)
     && truthy (Config.get env config "onlyoffice.jwt_enabled" (VBool true))
  then
    token <- generate_jwt_token (VDict cfg) ;;
    let cfg' := dict_set "token" (VStr token) cfg in
    _ <- slice10 (Config.onlyoffice_secret env config) ;;
    Ok (VDict cfg')
  else Ok (VDict cfg).

Definition user_block : pyval :=
  VDict [("id", Config.get env config "editor.default_user_id" (VStr "user1"));
         ("name", Config.get env config "editor.default_user_name" (VStr "User"))].

(** The dictionary [get_editor_config] builds before signing. *)
Definition editor_config_dict (unique_key file_id file_extension : string)
    (title : pyval) : pydict := [
  ("document", VDict [
     ("fileType", VStr (Str.drop1 file_extension));
     ("key", VStr unique_key);
     ("title", title);
     ("url", VStr (Config.server_url env config +:+ "/download/"
                     +:+ file_id))]);
  ("documentType", VStr (document_type_of file_extension));
  ("editorConfig", VDict [
     ("callbackUrl", VStr (Config.server_url env config +:+ "/callback/"
                             +:+ file_id));
     ("lang", Config.get env config "ui.language" (VStr "zh-CN"));
     ("user", user_block)]);
  ("width", VStr "100%");
  ("height", VStr "600px")].

(** [get_editor_config]; [t] is the reading of [time.time()]. *)
Definition get_editor_config (t : Q) (dir : updir) (file_id : string)
    : result pyval :=
  metadata <- read_metadata dir file_id ;;
  original_name <- py_getitem metadata "original_name" ;;
  file_extension <- suffix_lower original_name ;;
  let unique_key :=
    "edit_" +:+ file_id +:+ "_" +:+ Str.of_Z (epoch_seconds t) in
  title <- py_getitem metadata "original_name" ;;
  sign_config (editor_config_dict unique_key file_id file_extension title).

(** The dictionary [get_preview_config] builds before signing. *)
Definition preview_config_dict (unique_key file_id file_extension : string)
    (title : pyval) : pydict := [
  ("document", VDict [
     ("fileType", VStr (Str.drop1 file_extension));
     ("key", VStr unique_key);
     ("title", title);
     ("url", VStr (Config.server_url env config +:+ "/download/"
                     +:+ file_id))]);
  ("documentType", VStr (document_type_of file_extension));
  ("editorConfig", VDict [
     ("mode", VStr "view");
     ("lang", Config.get env config "ui.language" (VStr "zh-CN"));
     ("user", user_block);
     ("customization", VDict [
        ("autosave", VBool false);
        ("comments", VBool false);
        ("compactToolbar", VBool true);
        ("help", VBool false);
        ("hideRightMenu", VBool true);
        ("hideRulers", VBool true);
        ("integrationMode", VStr "embed");
        ("toolbarNoTabs", VBool true);
        ("zoom", VInt 100);
        ("goback", VBool false);
        ("chat", VBool false);
        ("plugins", VBool false);
        ("macros", VBool false)]);
     ("embedded", VDict [
        ("saveUrl", VStr "");
        ("embedUrl", VStr "");
        ("shareUrl", VStr "");
        ("toolbarDocked", VStr "top")])]);
  ("width", VStr "100%");
  ("height", VStr "600px")].

(** [get_preview_config] *)
Definition get_preview_config (t : Q) (dir : updir) (file_id : string)
    : result pyval :=
  metadata <- read_metadata dir file_id ;;
  original_name <- py_getitem metadata "original_name" ;;
  file_extension <- suffix_lower original_name ;;
  let unique_key :=
    "preview_" +:+ file_id +:+ "_" +:+ Str.of_Z (epoch_seconds t) in
  title <- py_getitem metadata "original_name" ;;
  sign_config (preview_config_dict unique_key file_id file_extension title).

(** The save step of the callback, reached with the body the document
    server answered: when the sidecar of [file_id] exists, the stored
    binary is overwritten and [last_modified] recorded.  The stored name is
    joined to the directory as a plain name, as in [entry_of]. *)
Definition save_document (now file_id body : string) : io unit :=
  (let metadata_path := file_id +:+ ".json" in
   present <~ io_exists metadata_path ;;
   if present then
     content <~ io_read metadata_path ;;
     metadata <~ io_lift (loads content) ;;
     stored_name <~ io_lift (py_getitem metadata "stored_name") ;;
     file_path <~ io_lift (match stored_name with
                           | VStr name => Ok name
                           | _ => Raise TypeError
                           end) ;;
     _ <~ io_write file_path body ;;
     metadata' <~ io_lift (py_setitem metadata "last_modified" (VStr now)) ;;
     io_write metadata_path (json_dumps true metadata')
   else io_ret tt)%io.

(** The callback from [status = request_data.get("status", 0)] on;
    [fetch] is [httpx.AsyncClient().get], answering a status code and a
    body, or raising. *)
Definition handle_status (fetch : pyval → result (Z * string))
    (now file_id : string) (request_data : pydict) : io pyval :=
  (let status := default (VInt 0) (dict_get "status" request_data) in
   _ <~ (if eq_two status then
           let download_url := default VNone (dict_get "url" request_data) in
           if truthy download_url then
             response <~ io_lift (fetch download_url) ;;
             if fst response =? 200
             then save_document now file_id (snd response)
             else io_ret tt
           else io_ret tt
         else io_ret tt) ;;
   io_ret (VDict [("error", VInt 0)]))%io.

(** The body of the outer [try] of [onlyoffice_callback]. *)
Definition callback_body (fetch : pyval → result (Z * string))
    (now file_id : string) (request_data : pydict) : io pyval :=
  if truthy (Config.get env config "onlyoffice.jwt_enabled" (VBool true))
     && dict_has "token" request_data
  then
    match (token <- py_getitem (VDict request_data) "token" ;;
           verify_jwt_token token) with
    | Ok _ => handle_status fetch now file_id request_data
    | Raise token_error =>
        io_ret (VDict [("error", VInt 1); ("message", VStr "Invalid token")])
    end
  else handle_status fetch now file_id request_data.

(** [onlyoffice_callback]: every exception of the body becomes an error
    envelope. *)
Definition onlyoffice_callback (fetch : pyval → result (Z * string))
    (now file_id : string) (request_data : pydict) (dir : updir)
    : pyval * updir :=
  match callback_body fetch now file_id request_data dir with
  | (Ok response, dir') => (response, dir')
  | (Raise e, dir') =>
      (VDict [("error", VInt 1); ("message", VStr (exn_str e))], dir')
  end.

(** [get_client_config] *)
Definition get_client_config : pyval :=
  VDict [
    ("server", VDict [("url", VStr (Config.server_url env config))]);
    ("onlyoffice", VDict [
       ("api_js_url", Config.onlyoffice_api_js_url env config)]);
    ("ui", VDict [
       ("title", Config.get env config "ui.title"
                   (VStr "OnlyOffice Document Editor"));
       ("subtitle", Config.get env config "ui.subtitle"
                      (VStr "在线文档编辑和协作平台"));
       ("language", Config.get env config "ui.language" (VStr "zh-CN"))]);
    ("storage", VDict [
       ("allowed_extensions", Config.allowed_extensions env config);
       ("max_file_size", Config.get env config "storage.max_file_size"
                           (VInt 104857600))])].

(** What [download_file] hands to [FileResponse]: the entry to serve and
    the name to serve it under. *)
Record FileResponse : Type := {
  path : string;
  filename : pyval;
  media_type : string;
}.

(** [UPLOAD_DIR / v]: the entry named by a string.  The join is the entry
    of that name for a plain name (not empty, without a slash, neither [.]
    nor [..]), as [upload_file] records; the statements about a recorded
    stored name are made for plain names. *)
Definition entry_of (v : pyval) : result string :=
  match v with
  | VStr name => Ok name
  | _ => Raise TypeError
  end.

(** [download_file] *)
Definition download_file (dir : updir) (file_id : string)
    : result FileResponse :=
  metadata <- read_metadata dir file_id ;;
  stored_name <- py_getitem metadata "stored_name" ;;
  file_path <- entry_of stored_name ;;
  if bool_decide (is_Some (dir !! file_path)) then
    original_name <- py_getitem metadata "original_name" ;;
    Ok {| path := file_path; filename := original_name;
          media_type := "application/octet-stream" |}
  else Raise (HTTPException 404 "File not found").

(** [delete_file] *)
Definition delete_file (file_id : string) : io pyval :=
  (let metadata_path := file_id +:+ ".json" in
   present <~ io_exists metadata_path ;;
   if present then
     content <~ io_read metadata_path ;;
     metadata <~ io_lift (loads content) ;;
     stored_name <~ io_lift (py_getitem metadata "stored_name") ;;
     file_path <~ io_lift (entry_of stored_name) ;;
     binary_present <~ io_exists file_path ;;
     _ <~ (if binary_present then io_unlink file_path else io_ret tt) ;;
     _ <~ io_unlink metadata_path ;;
     io_ret (VDict [("message", VStr "File deleted successfully");
                    ("file_id", VStr file_id)])
   else io_raise (HTTPException 404 "File not found"))%io.

End WithRuntime.
End Main.

(** ** manage_config.py *)

Module Manage.
Section WithRuntime.
Context `{PyRuntime}.

(** The conversion [set_config] applies to its command-line value.  A
    [ValueError] of [int] or [float] is not caught there; of [json.loads]
    only [json.JSONDecodeError] is, as in [_convert_env_value]. *)
Definition convert_value (value : string) : result pyval :=
  if bool_decide (Str.lower value ∈ ["true"; "false"]) then
    Ok (VBool (bool_decide (Str.lower value = "true")))
  else if Str.isdigit value then
    match py_int value with
    | Some n => Ok (VInt n)
    | None => Raise (OtherError "ValueError")
    end
  else if Str.isdigit (Str.remove_char "." value) then
    match py_float value with
    | Some f => Ok (VFloat f)
    | None => Raise (OtherError "ValueError")
    end
  else if Str.startswith "[" value && Str.endswith "]" value then
    match json_loads value with
    | Some parsed => Ok parsed
    | None =>
        match json_loads_error value with
        | JSONDecodeError => Ok (VStr value)
        | e => Raise e
        end
    end
  else Ok (VStr value).

(** [set_config(key, value)] on the instance [get_config()] returns. *)
Definition set_config (self : Config.t) (d : disk) (key value : string)
    : result (Config.t * disk) :=
  converted <- convert_value value ;;
  self' <- Config.set self key converted ;;
  Ok (self', Config.save_config self' d).

(** [Path(src).rename(dst)]: the entry moves, replacing what [dst] held. *)
Definition rename (d : disk) (src dst : string) : disk :=
  match files d !! src with
  | Some text => Disk (<[dst := text]> (delete src (files d))) (readonly d)
  | None => d
  end.

(** [reset_config]: the new instance and the disk it leaves. *)
Definition reset_config (d : disk) : Config.t * disk :=
  let d1 := if path_exists d "config.json"
            then rename d "config.json" "config.json.backup"
            else d in
  Config.init "config.json" d1.

End WithRuntime.
End Manage.

(** ** A reference runtime *)

(** Executable stand-ins for the library calls, used to run the program on
    concrete inputs.  [int] and [float] follow Python's grammar on ASCII
    text, [float] with correct rounding to binary64.  The JSON codec reads
    and prints ASCII documents ([indent=2]); non-ASCII bytes are written as
    they are, escapes above [\u007f] are not read, and a float is printed by
    its exact decimal expansion.  The token functions only mimic the
    interface of HS256 signing: a token names the key and carries the
    payload. *)
Module Ref.

Definition code (c : ascii) : Z := Z.of_nat (nat_of_ascii c).

Definition is_digit (c : ascii) : bool := (48 <=? code c) && (code c <=? 57).
Definition digit (c : ascii) : Z := code c - 48.

(** what [str.strip()] removes among ASCII characters *)
Definition is_space (c : ascii) : bool :=
  ((9 <=? code c) && (code c <=? 13))
  || ((28 <=? code c) && (code c <=? 32)).

Fixpoint lstrip (s : string) : string :=
  match s with
  | String c s' => if is_space c then lstrip s' else s
  | "" => ""
  end.
Definition strip (s : string) : string :=
  String.rev (lstrip (String.rev (lstrip s))).

(** A digit string with single underscores between digits. *)
Fixpoint digits_value (acc : Z) (after_digit : bool) (s : string)
    : option Z :=
  match s with
  | "" => if after_digit then Some acc else None
  | String c s' =>
      if is_digit c then digits_value (10 * acc + digit c) true s'
      else if bool_decide (c = "_"%char) && after_digit
           then digits_value acc false s'
           else None
  end.

Fixpoint count_digits (s : string) : Z :=
  match s with
  | "" => 0
  | String c s' => (if is_digit c then 1 else 0) + count_digits s'
  end.

(** an optional sign: the sign read and the rest *)
Definition split_sign (s : string) : bool * string :=
  match s with
  | String "-" s' => (true, s')
  | String "+" s' => (false, s')
  | _ => (false, s)
  end.

Definition int (s : string) : option Z :=
  let '(neg, body) := split_sign (strip s) in
  n ← digits_value 0 false body;
  Some (if neg then - n else n).

(** [m * 10 ^ e10], rounded to nearest even in binary64. *)
Definition decimal_to_float (neg : bool) (m e10 : Z) : float :=
  let sgn (x : Z) := if neg then - x else x in
  if m =? 0 then SF2Prim (S754_zero neg)
  else if 0 <=? e10
  then SF2Prim (binary_normalize prec emax (sgn (m * 10 ^ e10)) 0 neg)
  else
    let d := 10 ^ (- e10) in
    let sh := Z.max 1100 (60 + Z.log2 d) in
    let '(q, r) := Z.div_eucl (m * 2 ^ sh) d in
    let q' := 2 * q + (if r =? 0 then 0 else 1) in
    SF2Prim (binary_normalize prec emax (sgn q') (- sh - 1) neg).

(** the text before the first character satisfying [p], and from it on *)
Fixpoint break (p : ascii → bool) (s : string) : string * string :=
  match s with
  | "" => ("", "")
  | String c s' =>
      if p c then ("", s)
      else let '(a, b) := break p s' in (String c a, b)
  end.

Definition is_e (c : ascii) : bool :=
  bool_decide (c = "e"%char) || bool_decide (c = "E"%char).
Definition is_dot (c : ascii) : bool := bool_decide (c = "."%char).

(** digits, possibly none *)
Definition opt_digits (s : string) : option Z :=
  if bool_decide (s = "") then Some 0 else digits_value 0 false s.

Definition float (s : string) : option PrimFloat.float :=
  let '(neg, body) := split_sign (strip s) in
  let low := Str.lower body in
  if bool_decide (low ∈ ["inf"; "infinity"])
  then Some (if neg then neg_infinity else infinity)
  else if bool_decide (low = "nan") then Some nan
  else
    let '(mant, ex) := break is_e body in
    let '(ip, fp) := break is_dot mant in
    let fp := Str.drop1 fp in
    if bool_decide (ip = "") && bool_decide (fp = "") then None
    else
      i ← opt_digits ip;
      f ← opt_digits fp;
      e ← match ex with
          | "" => Some 0
          | String _ ex' =>
              let '(eneg, edigits) := split_sign ex' in
              e ← digits_value 0 false edigits;
              Some (if eneg then - e else e)
          end;
      let nf := count_digits fp in
      Some (decimal_to_float neg (i * 10 ^ nf + f) (e - nf)).

(** *** JSON text *)

Definition dq : ascii := "034".
Definition nl : ascii := "010".

Definition is_json_space (c : ascii) : bool :=
  bool_decide (code c ∈ [32; 9; 10; 13]).

Fixpoint skip_ws (s : string) : string :=
  match s with
  | String c s' => if is_json_space c then skip_ws s' else s
  | "" => ""
  end.

Definition hex_value (c : ascii) : option Z :=
  let n := code c in
  if (48 <=? n) && (n <=? 57) then Some (n - 48)
  else if (97 <=? n) && (n <=? 102) then Some (n - 87)
  else if (65 <=? n) && (n <=? 70) then Some (n - 55)
  else None.

Definition unescape (c : ascii) : option ascii :=
  if bool_decide (c = dq) then Some dq
  else if bool_decide (c = "\"%char) then Some "\"%char
  else if bool_decide (c = "/"%char) then Some "/"%char
  else if bool_decide (c = "b"%char) then Some "008"%char
  else if bool_decide (c = "f"%char) then Some "012"%char
  else if bool_decide (c = "n"%char) then Some "010"%char
  else if bool_decide (c = "r"%char) then Some "013"%char
  else if bool_decide (c = "t"%char) then Some "009"%char
  else None.

(** a string literal after its opening quote: the text and what follows
    the closing quote *)
Fixpoint parse_string (s : string) : option (string * string) :=
  match s with
  | "" => None
  | String c s' =>
      if bool_decide (c = dq) then Some ("", s')
      else if bool_decide (c = "\"%char) then
        match s' with
        | String "u" (String h1 (String h2 (String h3 (String h4 s'')))) =>
            a ← hex_value h1; b ← hex_value h2;
            c3 ← hex_value h3; d ← hex_value h4;
            let n := ((a * 16 + b) * 16 + c3) * 16 + d in
            if n <? 128 then
              '(text, rest) ← parse_string s'';
              Some (String (ascii_of_nat (Z.to_nat n)) text, rest)
            else None
        | String e s'' =>
            ch ← unescape e;
            '(text, rest) ← parse_string s'';
            Some (String ch text, rest)
        | "" => None
        end
      else if code c <? 32 then None
      else
        '(text, rest) ← parse_string s';
        Some (String c text, rest)
  end.

Definition take_digits (s : string) : string * string :=
  break (fun c => negb (is_digit c)) s.

(** a number at the head of [s], by the JSON grammar *)
Definition parse_number (s : string) : option (pyval * string) :=
  let '(neg, s1) := match s with
                    | String "-" s' => (true, s')
                    | _ => (false, s)
                    end in
  let '(ip, s2) := take_digits s1 in
  let '(ip, s2) := match ip with
                   | String "0" (String _ _) => ("0", Str.drop1 s1)
                   | _ => (ip, s2)
                   end in
  if bool_decide (ip = "") then None
  else
    let '(fp, s3) := match s2 with
                     | String "." s' =>
                         let '(fp, r) := take_digits s' in
                         if bool_decide (fp = "") then ("", s2) else (fp, r)
                     | _ => ("", s2)
                     end in
    let '(ex, s4) := match s3 with
                     | String c s' =>
                         if is_e c then
                           let '(sg, s'') :=
                             match s' with
                             | String "-" t => ("-", t)
                             | String "+" t => ("+", t)
                             | _ => ("", s')
                             end in
                           let '(ed, r) := take_digits s'' in
                           if bool_decide (ed = "") then ("", s3)
                           else ("e" +:+ sg +:+ ed, r)
                         else ("", s3)
                     | "" => ("", s3)
                     end in
    let sign := if neg then "-" else "" in
    if bool_decide (fp = "") && bool_decide (ex = "")
    then n ← int (sign +:+ ip); Some (VInt n, s4)
    else
      x ← float (sign +:+ ip +:+ (if bool_decide (fp = "") then ""
                                   else "." +:+ fp) +:+ ex);
      Some (VFloat x, s4).

Definition parse_scalar (s : string) : option (pyval * string) :=
  let word (w : string) (v : pyval) : option (pyval * string) :=
    if String.prefix w s
    then Some (v, String.substring (String.length w)
                    (String.length s - String.length w) s)
    else None in
  match word "null" VNone with Some r => Some r | None =>
  match word "true" (VBool true) with Some r => Some r | None =>
  match word "false" (VBool false) with Some r => Some r | None =>
  match word "NaN" (VFloat nan) with Some r => Some r | None =>
  match word "Infinity" (VFloat infinity) with Some r => Some r | None =>
  match word "-Infinity" (VFloat neg_infinity) with Some r => Some r | None =>
  parse_number s
  end end end end end end.

Fixpoint parse_value (fuel : nat) (s : string) : option (pyval * string) :=
  match fuel with
  | O => None
  | S fuel' =>
      match skip_ws s with
      | String "[" rest =>
          match skip_ws rest with
          | String "]" rest' => Some (VList [], rest')
          | _ => parse_items fuel' [] rest
          end
      | String "{" rest =>
          match skip_ws rest with
          | String "}" rest' => Some (VDict [], rest')
          | _ => parse_members fuel' [] rest
          end
      | String c rest =>
          if bool_decide (c = dq) then
            '(text, rest') ← parse_string rest; Some (VStr text, rest')
          else parse_scalar (String c rest)
      | "" => None
      end
  end
with parse_items (fuel : nat) (acc : list pyval) (s : string)
    : option (pyval * string) :=
  match fuel with
  | O => None
  | S fuel' =>
      '(v, rest) ← parse_value fuel' s;
      match skip_ws rest with
      | String "," rest' => parse_items fuel' (acc ++ [v]) rest'
      | String "]" rest' => Some (VList (acc ++ [v]), rest')
      | _ => None
      end
  end
with parse_members (fuel : nat) (acc : pydict) (s : string)
    : option (pyval * string) :=
  match fuel with
  | O => None
  | S fuel' =>
      match skip_ws s with
      | String c rest =>
          if bool_decide (c = dq) then
            '(k, rest1) ← parse_string rest;
            match skip_ws rest1 with
            | String ":" rest2 =>
                '(v, rest3) ← parse_value fuel' rest2;
                match skip_ws rest3 with
                | String "," rest4 =>
                    parse_members fuel' (dict_set k v acc) rest4
                | String "}" rest4 => Some (VDict (dict_set k v acc), rest4)
                | _ => None
                end
            | _ => None
            end
          else None
      | "" => None
      end
  end.

Definition loads (s : string) : option pyval :=
  '(v, rest) ← parse_value (2 * String.length s + 2) s;
  if bool_decide (skip_ws rest = "") then Some v else None.

Definition hex_digit (n : Z) : ascii :=
  ascii_of_nat (Z.to_nat (if n <? 10 then 48 + n else 87 + n)).

Fixpoint escape (s : string) : string :=
  match s with
  | "" => ""
  | String c s' =>
      (if bool_decide (c = dq) then String "\" (String dq "")
       else if bool_decide (c = "\"%char) then "\\"
       else if bool_decide (c = "010"%char) then "\n"
       else if bool_decide (c = "013"%char) then "\r"
       else if bool_decide (c = "009"%char) then "\t"
       else if bool_decide (c = "008"%char) then "\b"
       else if bool_decide (c = "012"%char) then "\f"
       else if code c <? 32
            then "\u00" +:+ String (hex_digit (code c / 16))
                             (String (hex_digit (code c mod 16)) "")
            else String c "") +:+ escape s'
  end.

Definition quoted (s : string) : string :=
  String dq (escape s +:+ String dq "").

Fixpoint zeros (n : nat) : string :=
  match n with O => "" | S n' => String "0" (zeros n') end.

Fixpoint rstrip_zeros_rev (s : string) : string :=
  match s with
  | String "0" (String _ _ as s') => rstrip_zeros_rev s'
  | _ => s
  end.

(** the exact decimal expansion of a finite float *)
Definition finite_text (neg : bool) (m : positive) (e : Z) : string :=
  (if neg then "-" else "") +:+
  (if 0 <=? e then Str.of_Z (Z.pos m * 2 ^ e) +:+ ".0"
   else
     let k := Z.to_nat (- e) in
     let ds := Str.of_Z (Z.pos m * 5 ^ (- e)) in
     let ds := zeros (k + 1 - String.length ds) +:+ ds in
     let n := String.length ds in
     String.substring 0 (n - k) ds +:+ "." +:+
     String.rev (rstrip_zeros_rev (String.rev (String.substring (n - k) k ds)))).

Definition float_text (inf_text nan_text : string) (f : PrimFloat.float)
    : string :=
  match Prim2SF f with
  | S754_nan => nan_text
  | S754_infinity neg => (if neg then "-" else "") +:+ inf_text
  | S754_zero neg => if neg then "-0.0" else "0.0"
  | S754_finite neg m e => finite_text neg m e
  end.

Definition indent (level : nat) : string :=
  String nl (String.concat "" (replicate level "  ")).

Fixpoint dumps_at (level : nat) (v : pyval) {struct v} : string :=
  match v with
  | VNone => "null"
  | VBool b => if b then "true" else "false"
  | VInt n => Str.of_Z n
  | VFloat f => float_text "Infinity" "NaN" f
  | VStr s => quoted s
  | VList [] => "[]"
  | VList (x :: xs) =>
      "[" +:+ indent (S level) +:+ dumps_at (S level) x +:+
      (fix rest (l : list pyval) : string :=
         match l with
         | [] => ""
         | y :: l' =>
             "," +:+ indent (S level) +:+ dumps_at (S level) y +:+ rest l'
         end) xs +:+ indent level +:+ "]"
  | VDict [] => "{}"
  | VDict ((k, x) :: xs) =>
      "{" +:+ indent (S level) +:+ quoted k +:+ ": " +:+
      dumps_at (S level) x +:+
      (fix rest (l : pydict) : string :=
         match l with
         | [] => ""
         | (k', y) :: l' =>
             "," +:+ indent (S level) +:+ quoted k' +:+ ": " +:+
             dumps_at (S level) y +:+ rest l'
         end) xs +:+ indent level +:+ "}"
  end.

Definition dumps (ensure_ascii : bool) (v : pyval) : string := dumps_at 0 v.

(** *** [str], [<], tokens and exception messages *)

Fixpoint repr (v : pyval) {struct v} : string :=
  match v with
  | VNone => "None"
  | VBool b => if b then "True" else "False"
  | VInt n => Str.of_Z n
  | VFloat f => float_text "inf" "nan" f
  | VStr s => "'" +:+ s +:+ "'"
  | VList l =>
      "[" +:+ String.concat ", "
                ((fix each (l : list pyval) : list string :=
                    match l with
                    | [] => []
                    | x :: l' => repr x :: each l'
                    end) l) +:+ "]"
  | VDict d =>
      "{" +:+ String.concat ", "
                ((fix each (l : pydict) : list string :=
                    match l with
                    | [] => []
                    | (k, x) :: l' =>
                        ("'" +:+ k +:+ "': " +:+ repr x) :: each l'
                    end) d) +:+ "}"
  end.

Definition str (v : pyval) : string :=
  match v with VStr s => s | _ => repr v end.

Definition as_int (v : pyval) : option Z :=
  match v with
  | VInt n => Some n
  | VBool b => Some (if b then 1 else 0)
  | _ => None
  end.

Definition lt (a b : pyval) : option bool :=
  match a, b with
  | VStr x, VStr y => Some (String.ltb x y)
  | VFloat x, VFloat y => Some (PrimFloat.ltb x y)
  | _, _ => x ← as_int a; y ← as_int b; Some (x <? y)
  end.

Definition token_prefix (k : string) : string := "hs256." +:+ k +:+ ".".

Definition encode (payload key : pyval) : result string :=
  match key with
  | VStr k => Ok (token_prefix k +:+ dumps true payload)
  | _ => Raise TypeError
  end.

Definition decode (token key : pyval) : result pyval :=
  match key, token with
  | VStr k, VStr t =>
      let p := token_prefix k in
      if String.prefix p t then
        match loads (String.substring (String.length p)
                       (String.length t - String.length p) t) with
        | Some claims => Ok claims
        | None => Raise InvalidTokenError
        end
      else Raise InvalidTokenError
  | VStr _, _ => Raise InvalidTokenError
  | _, _ => Raise TypeError
  end.

Definition message (e : exn) : string :=
  match e with
  | HTTPException status_code detail =>
      Str.of_Z status_code +:+ ": " +:+ detail
  | TypeError => "unsupported operand type"
  | KeyError key => "'" +:+ key +:+ "'"
  | JSONDecodeError => "Expecting value"
  | InvalidTokenError => "Invalid token"
  | FileNotFoundError => "No such file or directory"
  | OSError => "Permission denied"
  | OtherError what => what
  end.

Definition runtime : PyRuntime := {|
  py_int := int;
  py_float := float;
  json_loads := loads;
  json_loads_error := fun _ => JSONDecodeError;
  json_dumps := dumps;
  py_str := str;
  py_lt := lt;
  jwt_encode := encode;
  jwt_decode := decode;
  exn_str := message;
|}.

End Ref.

(** * Vocabulary of the statements *)

(** The value bound at a path of keys, if every key on the way is present
    in a dictionary. *)
Fixpoint find_path (keys : list string) (v : pyval) : option pyval :=
  match keys with
  | [] => Some v
  | k :: keys' =>
      match v with
      | VDict d => dict_get k d ≫= find_path keys'
      | _ => None
      end
  end.

(** Walking [init] down the tree reaches a key that is bound to something
    other than a dictionary. *)
Fixpoint blocked (init : list string) (d : pydict) : bool :=
  match init with
  | [] => false
  | k :: init' =>
      match dict_get k d with
      | Some (VDict d') => blocked init' d'
      | Some _ => true
      | None => false
      end
  end.

(** [q] leaves the path [keys] at some key: neither is a prefix of the
    other. *)
Fixpoint diverges (q keys : list string) : bool :=
  match q, keys with
  | a :: q', b :: keys' => if decide (a = b) then diverges q' keys' else true
  | _, _ => false
  end.

Section Vocabulary.
Context `{PyRuntime}.

Definition is_bool_literal (s : string) : bool :=
  bool_decide (Str.lower s ∈ ["true"; "false"]).

Definition opens_json (s : string) : bool :=
  Str.startswith "[" s || Str.startswith "{" s.

Definition is_container (v : pyval) : bool :=
  match v with VList _ | VDict _ => true | _ => false end.

(** The coercion rule in the words of the specification: boolean literal,
    else integer, else float, else JSON array or object text, else the raw
    string. *)
Inductive spec_coercion (s : string) : pyval → Prop :=
| spec_bool :
    is_bool_literal s = true →
    spec_coercion s (VBool (bool_decide (Str.lower s = "true")))
| spec_int n :
    is_bool_literal s = false → py_int s = Some n →
    spec_coercion s (VInt n)
| spec_float f :
    is_bool_literal s = false → py_int s = None → py_float s = Some f →
    spec_coercion s (VFloat f)
| spec_json v :
    is_bool_literal s = false → py_int s = None → py_float s = None →
    json_loads s = Some v → is_container v = true →
    spec_coercion s v
| spec_raw :
    is_bool_literal s = false → py_int s = None → py_float s = None →
    (∀ v, json_loads s = Some v → is_container v = false) →
    spec_coercion s (VStr s).

(** The number conversion the code tries is chosen by the presence of a
    dot; this says it failed. *)
Definition number_rejected (s : string) : Prop :=
  if Str.contains_char "." s then py_float s = None else py_int s = None.

(** The coercion rule the code follows. *)
Inductive coercion (s : string) : pyval → Prop :=
| coerce_bool :
    is_bool_literal s = true →
    coercion s (VBool (bool_decide (Str.lower s = "true")))
| coerce_int n :
    is_bool_literal s = false → Str.contains_char "." s = false →
    py_int s = Some n →
    coercion s (VInt n)
| coerce_float f :
    is_bool_literal s = false → Str.contains_char "." s = true →
    py_float s = Some f →
    coercion s (VFloat f)
| coerce_json v :
    is_bool_literal s = false → number_rejected s →
    opens_json s = true → json_loads s = Some v →
    coercion s v
| coerce_raw :
    is_bool_literal s = false → number_rejected s →
    opens_json s = false ∨ json_loads s = None →
    coercion s (VStr s).

(** The coercion reaches [json.loads], which raises an exception other
    than [json.JSONDecodeError]. *)
Definition loads_escapes (s : string) : Prop :=
  is_bool_literal s = false ∧ number_rejected s ∧ opens_json s = true
  ∧ json_loads s = None ∧ json_loads_error s ≠ JSONDecodeError.

(** [set(key, value)], [save_config()], a fresh [Config] on the same file,
    then [get(key, default)]. *)
Definition set_save_reload_get (env : gmap string string) (d : disk)
    (self : Config.t) (key : string) (value default : pyval) : result pyval :=
  self1 <- Config.set self key value ;;
  let d1 := Config.save_config self1 d in
  let fresh := fst (Config.init (Config.config_file self1) d1) in
  Ok (Config.get env fresh key default).

(** A sidecar [list_files] can summarise: JSON text of a dictionary holding
    the four fields of a summary. *)
Definition sidecar_ok (content : string) : bool :=
  match json_loads content with
  | Some (VDict d) =>
      dict_has "id" d && dict_has "original_name" d
      && dict_has "upload_time" d && dict_has "size" d
  | _ => false
  end.

(** The metadata [upload_file] records and the summary [list_files] makes
    of it. *)
Definition upload_metadata (file_id now filename body : string) : pydict := [
  ("id", VStr file_id);
  ("original_name", VStr filename);
  ("stored_name", VStr (file_id +:+ path_suffix filename));
  ("upload_time", VStr now);
  ("size", VInt (Z.of_nat (String.length body)))].

Definition upload_summary (file_id now filename body : string) : pyval :=
  VDict [("id", VStr file_id); ("name", VStr filename);
         ("upload_time", VStr now);
         ("size", VInt (Z.of_nat (String.length body)))].

(** The two answers of the callback. *)
Definition callback_ok : pyval := VDict [("error", VInt 0)].
Definition callback_invalid_token : pyval :=
  VDict [("error", VInt 1); ("message", VStr "Invalid token")].




(** A name that names an entry of the directory it is joined to: not
    empty, without a slash, and neither [.] nor [..]. *)
Definition plain_name (name : string) : bool :=
  negb (bool_decide (name = ""))
  && negb (Str.contains_char "/" name)
  && negb (bool_decide (name = "."))
  && negb (bool_decide (name = "..")).


End Vocabulary.

(** The runtime [R] with another token verifier. *)
Definition with_decoder (R : PyRuntime)
    (decoder : pyval → pyval → result pyval) : PyRuntime := {|
  py_int := @py_int R;
  py_float := @py_float R;
  json_loads := @json_loads R;
  json_loads_error := @json_loads_error R;
  json_dumps := @json_dumps R;
  py_str := @py_str R;
  py_lt := @py_lt R;
  jwt_encode := @jwt_encode R;
  jwt_decode := decoder;
  exn_str := @exn_str R;
|}.

(** ** Sample inputs *)

Module Sample.

(** the [Config] object over the default tree *)
Definition config : Config.t := Config.Make "config.json" Config._get_default_config.

(** the default tree as a dictionary *)
Definition tree : pydict :=
  match Config._get_default_config with VDict d => d | _ => [] end.

(** an environment overriding the port *)
Definition env : gmap string string := {[ "SERVER_PORT" := "9000" ]}.

(** an empty, writable disk *)
Definition blank : disk := Disk ∅ ∅.

(** the upload directory after one upload into an empty one *)
Definition uploaded : updir :=
  snd (Main.upload_file (H := Ref.runtime) "0001" "2024-05-01T10:00:00"
         (Some "report.xlsx") "hello" ∅).

(** the metadata that upload recorded and its sidecar text *)
Definition metadata : pydict := [
  ("id", VStr "0001");
  ("original_name", VStr "report.xlsx");
  ("stored_name", VStr "0001.xlsx");
  ("upload_time", VStr "2024-05-01T10:00:00");
  ("size", VInt 5)].

Definition sidecar : string := Ref.dumps true (VDict metadata).

(** the same with a sidecar that is not JSON *)
Definition mixed : updir := <["broken.json" := "not json"]> uploaded.

(** a document server answering every download with a new body *)
Definition fetch (url : pyval) : result (Z * string) := Ok (200, "edited").

(** a save callback without a token *)
Definition save_request : pydict :=
  [("status", VInt 2); ("url", VStr "http://docs/cache/0001")].

(** the instance after [set("ui.colors.accent", "teal")] *)
Definition recolored : Config.t :=
  match Config.set config "ui.colors.accent" (VStr "teal") with
  | Ok c => c
  | Raise _ => config
  end.

(** the instance after the secret was replaced *)
Definition rotated : Config.t :=
  match Config.set config "onlyoffice.secret" (VStr "rotated-secret") with
  | Ok c => c
  | Raise _ => config
  end.

(** what [manage_config.py set server.port 9001] leaves *)
Definition cli_result : Config.t * disk :=
  match Manage.set_config (H := Ref.runtime) config blank
          "server.port" "9001" with
  | Ok r => r
  | Raise _ => (config, blank)
  end.

(** a disk holding an older configuration file *)
Definition configured : disk := Disk {[ "config.json" := "{}" ]} ∅.

(** the upload directory after the binary was lost *)
Definition orphan : updir := delete "0001.xlsx" uploaded.

(** the upload directory with a file of another origin *)
Definition crowded : updir := <["notes.txt" := "keep"]> uploaded.

(** the upload directory after uploading [data.json] into an empty one *)
Definition json_metadata : pydict :=
  upload_metadata "0002" "2024-05-01T11:00:00" "data.json" "{}".

Definition json_uploaded : updir :=
  snd (Main.upload_file (H := Ref.runtime) "0002" "2024-05-01T11:00:00"
         (Some "data.json") "{}" ∅).

(** a callback while the document is being edited *)
Definition editing_request : pydict := [("status", VInt 6)].

(** a save callback carrying a token the reference verifier accepts *)
Definition good_token : pyval :=
  VStr (Ref.token_prefix "wIUxuAv0mXxom895nEGPKG3Bw3hm" +:+ "{}").

Definition signed_request : pydict := ("token", good_token) :: save_request.

(** the editor configuration of the upload, and its token *)
Definition editor_cfg : pydict :=
  match Main.get_editor_config (H := Ref.runtime) ∅ config (Qmake 4001 4)
          uploaded "0001" with
  | Ok (VDict cfg) => cfg
  | _ => []
  end.

Definition editor_token : pyval := default VNone (dict_get "token" editor_cfg).





(** a runtime whose [json.loads] refuses, with a [ValueError], a text of
    more than 16 characters: the library refuses in this way an integer
    literal beyond its digit limit *)
Definition over_limit (s : string) : bool := (16 <? String.length s)%nat.

Definition limited : PyRuntime := {|
  py_int := Ref.int;
  py_float := Ref.float;
  json_loads := fun s => if over_limit s then None else Ref.loads s;
  json_loads_error := fun s =>
    if over_limit s then OtherError "ValueError" else JSONDecodeError;
  json_dumps := Ref.dumps;
  py_str := Ref.str;
  py_lt := Ref.lt;
  jwt_encode := Ref.encode;
  jwt_decode := Ref.decode;
  exn_str := Ref.message;
|}.

(** the upload directory after a second upload *)
Definition uploaded_twice : updir :=
  snd (Main.upload_file (H := Ref.runtime) "0003" "2024-05-03T09:30:00"
         (Some "slides.pptx") "deck" uploaded).

End Sample.

(** Stepping a handler through lookups in a directory that was just
    written or pruned. *)
Ltac run_dir :=
  repeat first
    [ rewrite lookup_insert_eq
    | rewrite lookup_delete_eq
    | rewrite lookup_insert_ne by done
    | rewrite lookup_delete_ne by done
    | rewrite bool_decide_eq_true_2 by (by eexists)
    | rewrite bool_decide_eq_false_2 by (by intros [? ?])
    | progress simpl ].

(** * Properties of [config.py] *)

Lemma dict_get_set_eq (k : string) (v : pyval) (d : pydict) :
  dict_get k (dict_set k v d) = Some v.
Proof.
  induction d as [|[k' v'] d IH]; simpl.
  - by rewrite decide_True.
  - destruct (decide (k = k')) as [->|Hne]; simpl.
    + by rewrite decide_True.
    + by rewrite decide_False.
Qed.

Lemma dict_get_set_ne (k k' : string) (v : pyval) (d : pydict) :
  k' ≠ k → dict_get k' (dict_set k v d) = dict_get k' d.
Proof.
  intros Hne. induction d as [|[k0 v0] d IH]; simpl.
  - by rewrite decide_False.
  - destruct (decide (k = k0)) as [->|Hk]; simpl.
    + by rewrite !decide_False.
    + destruct (decide (k' = k0)); done.
Qed.

Lemma dict_set_set (k : string) (v w : pyval) (d : pydict) :
  dict_set k w (dict_set k v d) = dict_set k w d.
Proof.
  induction d as [|[k' v'] d IH]; simpl.
  - by rewrite decide_True.
  - destruct (decide (k = k')) as [->|Hne]; simpl.
    + by rewrite decide_True.
    + rewrite decide_False by done. by rewrite IH.
Qed.


Lemma lookup_path_find (keys : list string) (v dflt w : pyval) :
  find_path keys v = Some w → Config.lookup_path keys v dflt = w.
Proof.
  revert v. induction keys as [|k keys IH]; intros v; simpl.
  - by intros [= ->].
  - destruct v; try done. destruct (dict_get k fields); simpl; [apply IH|done].
Qed.

Lemma blocked_empty (init : list string) : blocked init [] = false.
Proof. by destruct init. Qed.

Lemma split_nonempty (sep : ascii) (s : string) : Str.split sep s ≠ [].
Proof.
  destruct s as [|c s]; simpl; [done|].
  destruct (decide (c = sep)); [done|]. by destruct (Str.split sep s).
Qed.

(** Anything but a dictionary makes every step of [set] raise. *)
Lemma set_path_not_dict (init : list string) (last_key : string)
    (value config : pyval) :
  (∀ d, config ≠ VDict d) →
  Config.set_path init last_key value config = Raise TypeError.
Proof.
  intros Hnd. destruct init as [|k init]; simpl.
  - destruct config; try done. by destruct (Hnd fields).
  - destruct config; simpl; try done.
    + by destruct (Str.contains k s).
    + by destruct (existsb _ items).
    + by destruct (Hnd fields).
Qed.

(** One step of [set] inside a dictionary. *)
Lemma set_path_step (k : string) (init : list string) (last_key : string)
    (value : pyval) (d : pydict) :
  Config.set_path (k :: init) last_key value (VDict d) =
    (child' <- Config.set_path init last_key value
                 (default (VDict []) (dict_get k d)) ;;
     Ok (VDict (dict_set k child' d))).
Proof.
  simpl. unfold dict_has. destruct (dict_get k d) as [child|] eqn:Hk; simpl.
  - rewrite Hk. reflexivity.
  - rewrite dict_get_set_eq. simpl.
    destruct (Config.set_path init last_key value (VDict [])); simpl; [|done].
    by rewrite dict_set_set.
Qed.

(** From an empty dictionary [set] cannot raise: this is why an exception
    of [set] leaves the tree as it was. *)
Lemma set_path_fresh (init : list string) (last_key : string) (value : pyval) :
  ∃ d', Config.set_path init last_key value (VDict []) = Ok (VDict d').
Proof.
  induction init as [|k init [d' IH]].
  - by eexists.
  - rewrite set_path_step. simpl. rewrite IH. by eexists.
Qed.

Lemma set_path_blocked (init : list string) (last_key : string)
    (value : pyval) (d : pydict) :
  blocked init d = true →
  Config.set_path init last_key value (VDict d) = Raise TypeError.
Proof.
  revert d. induction init as [|k init IH]; intros d; [done|].
  rewrite set_path_step. cbn [blocked].
  destruct (dict_get k d) as [child|]; [|done].
  destruct child; cbn [default from_option id]; intros Hb;
    try (rewrite set_path_not_dict by done; done).
  by rewrite IH.
Qed.

Lemma set_path_open (init : list string) (last_key : string)
    (value : pyval) (d : pydict) :
  blocked init d = false →
  ∃ d', Config.set_path init last_key value (VDict d) = Ok (VDict d')
        ∧ find_path (init ++ [last_key]) (VDict d') = Some value
        ∧ ∀ q, diverges q (init ++ [last_key]) = true →
               find_path q (VDict d') = find_path q (VDict d).
Proof.
  revert d. induction init as [|k init IH]; intros d Hb.
  - exists (dict_set last_key value d). split; [done|]. split.
    + simpl. by rewrite dict_get_set_eq.
    + intros [|a q]; [done|]. simpl.
      destruct (decide (a = last_key)); [by destruct q|].
      intros _. by rewrite dict_get_set_ne.
  - rewrite set_path_step. cbn [blocked] in Hb.
    assert (∃ dc, default (VDict []) (dict_get k d) = VDict dc
                  ∧ blocked init dc = false
                  ∧ ∀ a q, find_path (a :: q) (VDict dc)
                           = dict_get k d ≫= find_path (a :: q))
      as (dc & -> & Hdc & Hold).
    { destruct (dict_get k d) as [[]|]; try done.
      - by eexists.
      - exists []. by rewrite blocked_empty. }
    destruct (IH dc Hdc) as (d' & -> & Hleaf & Hframe).
    exists (dict_set k (VDict d') d). split; [done|]. split.
    + simpl. by rewrite dict_get_set_eq.
    + intros [|a q]; [done|]. cbn [diverges app find_path].
      destruct (decide (a = k)) as [->|Hne].
      * intros Hq. rewrite dict_get_set_eq. cbn [mbind option_bind].
        rewrite (Hframe q Hq). destruct q as [|a q]; [done|]. apply Hold.
      * intros _. by rewrite dict_get_set_ne.
Qed.

Lemma split_init_last (key : string) :
  removelast (Str.split "." key) ++ [List.last (Str.split "." key) ""]
  = Str.split "." key.
Proof. symmetry. apply app_removelast_last, split_nonempty. Qed.

(** [set] as a whole, when the tree is a dictionary. *)
Lemma set_blocked (self : Config.t) (d : pydict) (key : string) (value : pyval) :
  Config._config self = VDict d →
  blocked (removelast (Str.split "." key)) d = true →
  Config.set self key value = Raise TypeError.
Proof.
  intros Hd Hb. unfold Config.set. rewrite Hd.
  by rewrite set_path_blocked.
Qed.

Lemma set_open (self : Config.t) (d : pydict) (key : string) (value : pyval) :
  Config._config self = VDict d →
  blocked (removelast (Str.split "." key)) d = false →
  ∃ d', Config.set self key value
          = Ok (Config.Make (Config.config_file self) (VDict d'))
        ∧ find_path (Str.split "." key) (VDict d') = Some value
        ∧ ∀ q, diverges q (Str.split "." key) = true →
               find_path q (VDict d') = find_path q (VDict d).
Proof.
  intros Hd Hb. unfold Config.set. rewrite Hd.
  destruct (set_path_open _ (List.last (Str.split "." key) "") value d Hb)
    as (d' & -> & Hleaf & Hframe).
  rewrite split_init_last in Hleaf, Hframe. by exists d'.
Qed.

Section ConfigProperties.
Context `{PyRuntime}.


(** The value [_convert_env_value] returns is the one the ordered rule
    [coercion] gives. *)
Lemma convert_env_value_coercion (s : string) (v : pyval) :
  coercion s v ↔ Config._convert_env_value s = v.
Proof.
  unfold Config._convert_env_value. split.
  - intros Hc. destruct Hc as [Hb|n Hb Hdot Hn|f Hb Hdot Hf|v Hb Hrej Ho Hj|Hb Hrej Hno];
      unfold is_bool_literal in Hb; rewrite Hb; try done.
    + by rewrite Hdot, Hn.
    + by rewrite Hdot, Hf.
    + unfold number_rejected in Hrej. unfold opens_json in Ho.
      destruct (Str.contains_char "." s); rewrite Hrej; simpl;
        by rewrite Ho, Hj.
    + unfold number_rejected in Hrej. unfold opens_json in Hno.
      destruct (Str.contains_char "." s); rewrite Hrej; simpl;
        (destruct Hno as [->| ->]; [done|]);
        by destruct (_ || _).
  - intros <-.
    destruct (bool_decide (Str.lower s ∈ ["true"; "false"])) eqn:Hb;
      [by apply coerce_bool|].
    destruct (Str.contains_char "." s) eqn:Hdot.
    + destruct (py_float s) as [f|] eqn:Hf; simpl; [by apply coerce_float|].
      assert (number_rejected s) as Hrej
        by (unfold number_rejected; by rewrite Hdot).
      destruct (_ || _) eqn:Ho; [|apply coerce_raw; auto].
      destruct (json_loads s) eqn:Hj;
        [by apply coerce_json|apply coerce_raw; auto].
    + destruct (py_int s) as [n|] eqn:Hn; simpl; [by apply coerce_int|].
      assert (number_rejected s) as Hrej
        by (unfold number_rejected; by rewrite Hdot).
      destruct (_ || _) eqn:Ho; [|apply coerce_raw; auto].
      destruct (json_loads s) eqn:Hj;
        [by apply coerce_json|apply coerce_raw; auto].
Qed.

(** The coercion either returns the value of [_convert_env_value], or
    [json.loads] raised past the handler. *)
Lemma convert_env_value_raising_cases (s : string) :
  (¬ loads_escapes s
   ∧ Config._convert_env_value_raising s = Ok (Config._convert_env_value s))
  ∨ (loads_escapes s
     ∧ Config._convert_env_value_raising s = Raise (json_loads_error s)).
Proof.
  unfold loads_escapes, is_bool_literal, number_rejected, opens_json,
    Config._convert_env_value_raising, Config._convert_env_value.
  destruct (bool_decide (Str.lower s ∈ ["true"; "false"])) eqn:Hb.
  { left. split; [|done]. by intros [? _]. }
  destruct (Str.contains_char "." s) eqn:Hdot.
  - destruct (py_float s) as [f|] eqn:Hf; simpl.
    { left. split; [|done]. by intros (_ & ? & _). }
    destruct (_ || _) eqn:Ho.
    2: { left. split; [|done]. by intros (_ & _ & ? & _). }
    destruct (json_loads s) as [parsed|] eqn:Hj.
    { left. split; [|done]. by intros (_ & _ & _ & ? & _). }
    destruct (json_loads_error s) eqn:He;
      try (right; split; [by repeat split|done]).
    left. split; [|done]. by intros (_ & _ & _ & _ & ?).
  - destruct (py_int s) as [n|] eqn:Hn; simpl.
    { left. split; [|done]. by intros (_ & ? & _). }
    destruct (_ || _) eqn:Ho.
    2: { left. split; [|done]. by intros (_ & _ & ? & _). }
    destruct (json_loads s) as [parsed|] eqn:Hj.
    { left. split; [|done]. by intros (_ & _ & _ & ? & _). }
    destruct (json_loads_error s) eqn:He;
      try (right; split; [by repeat split|done]).
    left. split; [|done]. by intros (_ & _ & _ & _ & ?).
Qed.

(** C4, as the code has it.  The coercion of an environment value returns
    [v] exactly when [v] is the value of the ordered rule [coercion] (a
    boolean for true/false in any case; else the integer when the text has
    no dot and [int] reads it, the float when it has a dot and [float]
    reads it; else what [json.loads] reads when the text starts with a
    bracket or a brace; else the text itself) and [json.loads], if it was
    reached, did not raise an exception other than [json.JSONDecodeError].
    It raises exactly when [json.loads] was reached and raised such an
    exception, and then raises that exception.  The value it returns is the
    one [get] uses. *)
Theorem convert_env_value_rule (s : string) :
  (∀ v, Config._convert_env_value_raising s = Ok v
        ↔ coercion s v ∧ ¬ loads_escapes s)
  ∧ (∀ e, Config._convert_env_value_raising s = Raise e
          ↔ loads_escapes s ∧ e = json_loads_error s)
  ∧ (∀ v, Config._convert_env_value_raising s = Ok v →
          Config._convert_env_value s = v).
Proof.
  destruct (convert_env_value_raising_cases s) as [[Hno ->]|[Hesc ->]].
  - split; [|split].
    + intros v. rewrite convert_env_value_coercion. split.
      * by intros [= <-].
      * by intros [<- _].
    + intros e. split; [done|]. by intros [? _].
    + by intros v [= <-].
  - split; [|split].
    + intros v. split; [done|]. by intros [_ ?].
    + intros e. split; [by intros [= <-]|]. by intros [_ ->].
    + done.
Qed.

(** C6, as the code has it: for a key with no environment override whose
    existing intermediate segments are all dictionaries, when the
    configuration file can be written and [json.load] reads back the tree
    [json.dump] wrote, [set], [save_config], a fresh [Config] and [get]
    yield the value that was set. *)
Theorem set_save_reload_roundtrip (env : gmap string string) (dk : disk)
    (self : Config.t) (d : pydict) (key : string) (value dflt : pyval) :
  env !! Config.env_key key = None →
  Config._config self = VDict d →
  blocked (removelast (Str.split "." key)) d = false →
  Config.config_file self ∉ readonly dk →
  (∀ self1, Config.set self key value = Ok self1 →
            json_loads (json_dumps false (Config._config self1))
            = Some (Config._config self1)) →
  set_save_reload_get env dk self key value dflt = Ok value.
Proof.
  intros Henv Hd Hb Hw Hcodec.
  destruct (set_open self d key value Hd Hb) as (d' & Hset & Hleaf & _).
  specialize (Hcodec _ Hset). simpl in Hcodec.
  unfold set_save_reload_get. rewrite Hset. simpl. f_equal.
  unfold Config.save_config, write_text. simpl.
  rewrite decide_False by done.
  unfold Config.init, Config.load_config, path_exists, read_text. simpl.
  rewrite lookup_insert_eq.
  rewrite bool_decide_eq_true_2 by by eexists.
  simpl. rewrite Hcodec. simpl.
  unfold Config.get. rewrite Henv. simpl.
  by apply lookup_path_find.
Qed.

End ConfigProperties.

(** C10: over a tree that is a dictionary, [set] raises exactly when an
    intermediate segment of the key is bound to something that is not a
    dictionary (the key then has at least two segments); otherwise it
    succeeds, binds the leaf to the value and leaves every path that leaves
    the key's path as it was. *)
Theorem set_raises_iff_blocked (self : Config.t) (d : pydict)
    (key : string) (value : pyval) :
  Config._config self = VDict d →
  (blocked (removelast (Str.split "." key)) d = true →
     (2 ≤ length (Str.split "." key))%nat
     ∧ Config.set self key value = Raise TypeError)
  ∧ (blocked (removelast (Str.split "." key)) d = false →
     ∃ d', Config.set self key value
             = Ok (Config.Make (Config.config_file self) (VDict d'))
           ∧ find_path (Str.split "." key) (VDict d') = Some value
           ∧ ∀ q, diverges q (Str.split "." key) = true →
                  find_path q (VDict d') = find_path q (VDict d)).
Proof.
  intros Hd. split; intros Hb.
  - split; [|by apply set_blocked with d].
    rewrite <- (split_init_last key), length_app. simpl.
    destruct (removelast (Str.split "." key)); [done|simpl; lia].
  - by apply set_open.
Qed.

(** ** Concrete runs of the configuration store *)


(** Against C4 as stated: ["1e5"] is no boolean literal, [int] rejects it
    and [float] reads it, yet the code returns the text itself: with no dot
    in the text [float] is never tried. *)
Lemma convert_env_value_not_spec_rule :
  Ref.float "1e5" = Some 100000%float
  ∧ Config._convert_env_value (H := Ref.runtime) "1e5" = VStr "1e5"
  ∧ ¬ spec_coercion (H := Ref.runtime) "1e5"
        (Config._convert_env_value (H := Ref.runtime) "1e5")
  ∧ Config._convert_env_value_raising (H := Ref.runtime) "1e5"
    = Ok (VStr "1e5").
Proof.
  assert (Config._convert_env_value (H := Ref.runtime) "1e5" = VStr "1e5")
    as Hrun by (vm_compute; reflexivity).
  split; [vm_compute; reflexivity|]. split; [done|].
  split; [|vm_compute; reflexivity].
  rewrite Hrun. intros Hs.
  inversion Hs as [| | |v ? ? Hf|? ? Hf]; vm_compute in Hf; discriminate Hf.
Qed.

Lemma convert_env_value_rule_witness :
  Config._convert_env_value_raising (H := Ref.runtime) "[1, 2]"
  = Ok (VList [VInt 1; VInt 2])
  ∧ Config._convert_env_value_raising (H := Sample.limited)
      "[11111111111111111]"
    = Raise (OtherError "ValueError").
Proof.
  split.
  - apply (proj1 (convert_env_value_rule (H := Ref.runtime) "[1, 2]")).
    split.
    + apply coerce_json; vm_compute; reflexivity.
    + intros (_ & _ & _ & Hj & _). vm_compute in Hj. discriminate Hj.
  - apply (proj1 (proj2 (convert_env_value_rule (H := Sample.limited)
                           "[11111111111111111]"))).
    split; [|vm_compute; reflexivity].
    repeat split; try (vm_compute; reflexivity).
    vm_compute. discriminate.
Defined.

(** Against C6 as stated: over the default tree, [set("server.host.x", 1)]
    raises, so the sequence yields no value. *)
Lemma set_save_reload_raises :
  set_save_reload_get (H := Ref.runtime) ∅ Sample.blank Sample.config
    "server.host.x" (VInt 1) VNone = Raise TypeError.
Proof. vm_compute. reflexivity. Qed.

Lemma set_save_reload_roundtrip_witness :
  set_save_reload_get (H := Ref.runtime) ∅ Sample.blank Sample.config
    "server.backup.port" (VInt 8001) VNone = Ok (VInt 8001).
Proof.
  apply (set_save_reload_roundtrip (H := Ref.runtime) ∅ Sample.blank
           Sample.config Sample.tree).
  - vm_compute. reflexivity.
  - reflexivity.
  - vm_compute. reflexivity.
  - apply not_elem_of_empty.
  - intros self1 Hset. vm_compute in Hset. injection Hset as <-.
    vm_compute. reflexivity.
Defined.

Lemma set_raises_iff_blocked_witness :
  Config.set Sample.config "server.host.x" (VInt 1) = Raise TypeError
  ∧ ∃ d', Config.set Sample.config "ui.colors.accent" (VStr "teal")
          = Ok (Config.Make "config.json" (VDict d'))
          ∧ find_path ["ui"; "colors"; "accent"] (VDict d')
            = Some (VStr "teal").
Proof.
  split.
  - refine (proj2 (proj1 (set_raises_iff_blocked Sample.config Sample.tree
                            "server.host.x" (VInt 1) eq_refl) _)).
    vm_compute. reflexivity.
  - destruct (proj2 (set_raises_iff_blocked Sample.config Sample.tree
                       "ui.colors.accent" (VStr "teal") eq_refl))
      as (d' & Hset & Hleaf & _); [vm_compute; reflexivity|].
    exists d'. split; [exact Hset|exact Hleaf].
Defined.

(** * Properties of [main.py] *)


Lemma glob_json_elem (dir : updir) (name content : string) :
  Str.endswith ".json" name = true → dir !! name = Some content →
  name ∈ Main.glob_json dir.
Proof.
  intros Hend Hdir. unfold Main.glob_json.
  apply list_elem_of_In, filter_In. split; [|done].
  apply list_elem_of_In, list_elem_of_fmap. exists (name, content).
  split; [done|]. by apply elem_of_map_to_list.
Qed.

Section MainProperties.
Context `{R : PyRuntime}.
Variable env : gmap string string.
Variable config : Config.t.

Lemma file_summary_corrupt (content : string) :
  sidecar_ok content = false → ∃ e, Main.file_summary content = Raise e.
Proof.
  unfold sidecar_ok, Main.file_summary, Main.loads.
  destruct (json_loads content) as [[| | | | | |d]|]; simpl; try by eexists.
  unfold dict_has.
  destruct (dict_get "id" d); simpl; [|by eexists].
  destruct (dict_get "original_name" d); simpl; [|by eexists].
  destruct (dict_get "upload_time" d); simpl; [|by eexists].
  destruct (dict_get "size" d); simpl; [done|by eexists].
Qed.

Lemma list_loop_corrupt (dir : updir) (names : list string)
    (files : list pyval) (name content : string) :
  name ∈ names → dir !! name = Some content → sidecar_ok content = false →
  ∃ e, Main.list_loop dir names files = Raise e.
Proof.
  intros Hin Hdir Hbad. revert files.
  induction names as [|n names IH]; intros files; [by inversion Hin|].
  simpl. destruct (decide (n = name)) as [->|Hne].
  - rewrite Hdir. simpl.
    destruct (file_summary_corrupt content Hbad) as [e ->]. by eexists.
  - assert (name ∈ names) as Hin' by (by inversion Hin; subst).
    destruct (dir !! n) as [c|]; simpl; [|by eexists].
    destruct (Main.file_summary c); simpl; [by apply IH|by eexists].
Qed.

(** C1, as the code has it: when a sidecar of the upload directory is
    corrupt (not JSON text of a dictionary with the fields [id],
    [original_name], [upload_time] and [size]), [list_files] raises and
    returns no summary at all. *)
Theorem list_files_raises_on_corrupt_sidecar (dir : updir)
    (name content : string) :
  Str.endswith ".json" name = true →
  dir !! name = Some content →
  sidecar_ok content = false →
  ∃ e, Main.list_files dir = Raise e.
Proof.
  intros Hend Hdir Hbad. unfold Main.list_files.
  destruct (list_loop_corrupt dir (Main.glob_json dir) [] name content)
    as [e ->]; [by apply glob_json_elem with content|done..|].
  by eexists.
Qed.





(** C8: when JWT is enabled and the request carries a token the verifier
    rejects, the callback answers the invalid-token envelope and the upload
    directory is what it was. *)
Theorem callback_invalid_token_no_mutation
    (fetch : pyval → result (Z * string)) (now file_id : string)
    (request_data : pydict) (dir : updir) (token : pyval) (e : exn) :
  truthy (Config.get env config "onlyoffice.jwt_enabled" (VBool true)) = true →
  dict_get "token" request_data = Some token →
  jwt_decode token (Config.onlyoffice_secret env config) = Raise e →
  Main.onlyoffice_callback env config fetch now file_id request_data dir
  = (VDict [("error", VInt 1); ("message", VStr "Invalid token")], dir).
Proof.
  intros Hen Htok Hdec.
  unfold Main.onlyoffice_callback, Main.callback_body, Main.verify_jwt_token.
  rewrite Hen. unfold dict_has. simpl. rewrite Htok. simpl. rewrite Hdec.
  by destruct e.
Qed.


End MainProperties.

(** C5, where the code fails it: uploading a file named [data.json] stores
    the binary under [{file_id}.json] and then writes the sidecar over it,
    so the directory gains one entry, holding the metadata; the uploaded
    content is not stored. *)
Theorem upload_json_name_overwrites_binary `{PyRuntime}
    (file_id now body : string) (dir : updir) :
  Main.upload_file file_id now (Some "data.json") body dir
  = (Ok (VDict [("message", VStr "File uploaded successfully");
                ("file_id", VStr file_id)]),
     <[file_id +:+ ".json" :=
         json_dumps true
           (VDict [("id", VStr file_id);
                   ("original_name", VStr "data.json");
                   ("stored_name", VStr (file_id +:+ ".json"));
                   ("upload_time", VStr now);
                   ("size", VInt (Z.of_nat (String.length body)))])]> dir).
Proof.
  unfold Main.upload_file.
  change (path_suffix "data.json") with ".json".
  unfold io_bind, io_write, io_ret. by rewrite insert_insert_eq.
Qed.

(** The complement: with any other extension the upload writes the binary
    and the sidecar under two different names. *)
Lemma upload_two_entries `{PyRuntime} (file_id now filename body : string)
    (dir : updir) :
  filename ≠ "" → path_suffix filename ≠ ".json" →
  ∃ sidecar,
    file_id +:+ path_suffix filename ≠ file_id +:+ ".json"
    ∧ snd (Main.upload_file file_id now (Some filename) body dir)
      = <[file_id +:+ ".json" := sidecar]>
          (<[file_id +:+ path_suffix filename := body]> dir).
Proof.
  intros Hname Hext. eexists. split.
  - intros Heq. by apply String.app_inj in Heq.
  - unfold Main.upload_file. destruct filename; [done|]. reflexivity.
Qed.


(** ** Concrete runs of the handlers *)

(** Against C1 as stated: a directory with one well-formed and one
    unparseable sidecar; the listing raises instead of returning the
    summary of the well-formed one. *)
Lemma list_files_aborts_on_mixed_directory :
  ∃ good,
    Sample.mixed !! "0001.json" = Some good
    ∧ sidecar_ok (H := Ref.runtime) good = true
    ∧ Sample.mixed !! "broken.json" = Some "not json"
    ∧ Main.list_files (H := Ref.runtime) Sample.mixed = Raise JSONDecodeError.
Proof. eexists. repeat split; vm_compute; reflexivity. Qed.

Lemma list_files_raises_on_corrupt_sidecar_witness :
  ∃ e, Main.list_files (H := Ref.runtime) Sample.mixed = Raise e.
Proof.
  apply (list_files_raises_on_corrupt_sidecar (R := Ref.runtime) Sample.mixed
           "broken.json" "not json"); vm_compute; reflexivity.
Defined.





Lemma callback_invalid_token_no_mutation_witness :
  Main.onlyoffice_callback (H := Ref.runtime) ∅ Sample.config Sample.fetch
    "2024-05-02T08:00:00" "0001"
    (("token", VStr "bogus") :: Sample.save_request) Sample.uploaded
  = (VDict [("error", VInt 1); ("message", VStr "Invalid token")],
     Sample.uploaded).
Proof.
  apply (callback_invalid_token_no_mutation (R := Ref.runtime) ∅
           Sample.config Sample.fetch "2024-05-02T08:00:00" "0001"
           (("token", VStr "bogus") :: Sample.save_request) Sample.uploaded
           (VStr "bogus") InvalidTokenError); vm_compute; reflexivity.
Defined.


(** * Further properties of [config.py] *)

Lemma lookup_path_default (keys : list string) (v dflt : pyval) :
  Config.lookup_path keys v dflt = default dflt (find_path keys v).
Proof.
  revert v. induction keys as [|k keys IH]; intros v; simpl; [done|].
  destruct v; try done. destruct (dict_get k fields); simpl; [apply IH|done].
Qed.

(** A [set] that returned started from a dictionary in which no
    intermediate segment is bound to a non-dictionary. *)
Lemma set_ok_inv (self self' : Config.t) (key : string) (value : pyval) :
  Config.set self key value = Ok self' →
  ∃ d, Config._config self = VDict d
       ∧ blocked (removelast (Str.split "." key)) d = false.
Proof.
  intros Hset.
  destruct (Config._config self) as [| | | | | |d] eqn:Hd;
    try (unfold Config.set in Hset; rewrite Hd in Hset;
         rewrite set_path_not_dict in Hset by done; discriminate Hset).
  exists d. split; [done|].
  destruct (blocked _ d) eqn:Hb; [|done].
  by rewrite (set_blocked self d key value Hd Hb) in Hset.
Qed.

Lemma set_path_twice (init : list string) (last_key : string)
    (v w config tree : pyval) :
  Config.set_path init last_key v config = Ok tree →
  Config.set_path init last_key w tree
  = Config.set_path init last_key w config.
Proof.
  revert config tree. induction init as [|k init IH]; intros config tree.
  - destruct config; try done. simpl. intros [= <-]. simpl.
    by rewrite dict_set_set.
  - destruct config as [| | | | | |d];
      try (rewrite set_path_not_dict by done; discriminate).
    rewrite !set_path_step.
    destruct (Config.set_path init last_key v
                (default (VDict []) (dict_get k d))) as [c1|] eqn:Hc1;
      [|discriminate].
    cbn [rbind]. intros [= <-]. rewrite set_path_step, dict_get_set_eq.
    cbn [default from_option id]. rewrite (IH _ _ Hc1).
    destruct (Config.set_path init last_key w _); simpl; [|done].
    by rewrite dict_set_set.
Qed.



Section MoreConfigProperties.
Context `{PyRuntime}.

(** X1: without an environment override, [get] answers the value bound at
    the dotted path, and the default as soon as a segment is missing or the
    path runs into a value that is not a dictionary. *)
Theorem get_follows_path (env : gmap string string) (self : Config.t)
    (key : string) (dflt : pyval) :
  env !! Config.env_key key = None →
  Config.get env self key dflt
  = default dflt (find_path (Str.split "." key) (Config._config self)).
Proof.
  intros Henv. unfold Config.get. rewrite Henv. apply lookup_path_default.
Qed.

(** X2: after a [set] that returned, [get] of the same key (when no
    environment variable overrides it) is the value set, and [get] of every
    key whose path leaves the path of the key set answers as before. *)
Theorem set_then_get (env : gmap string string) (self self' : Config.t)
    (key : string) (value : pyval) :
  Config.set self key value = Ok self' →
  (∀ dflt, env !! Config.env_key key = None →
           Config.get env self' key dflt = value)
  ∧ (∀ key' dflt,
       diverges (Str.split "." key') (Str.split "." key) = true →
       Config.get env self' key' dflt = Config.get env self key' dflt).
Proof.
  intros Hset. destruct (set_ok_inv _ _ _ _ Hset) as (d & Hd & Hb).
  destruct (set_open self d key value Hd Hb) as (d' & Hset' & Hleaf & Hframe).
  rewrite Hset in Hset'. injection Hset' as ->. split.
  - intros dflt Henv. unfold Config.get. rewrite Henv. simpl.
    by apply lookup_path_find.
  - intros key' dflt Hdiv. unfold Config.get.
    destruct (env !! Config.env_key key'); [done|].
    rewrite !lookup_path_default. simpl. rewrite Hd. by rewrite Hframe.
Qed.

(** X3: the last [set] of a key wins: setting a key again gives the tree
    that setting it once to the second value gives. *)
Theorem set_last_write_wins (self self1 : Config.t) (key : string)
    (v w : pyval) :
  Config.set self key v = Ok self1 →
  Config.set self1 key w = Config.set self key w.
Proof.
  unfold Config.set.
  destruct (Config.set_path _ _ v (Config._config self)) as [tree|] eqn:Hv;
    [|discriminate].
  simpl. intros [= <-]. simpl. by rewrite (set_path_twice _ _ _ _ _ _ Hv).
Qed.


(** X5: what [save_config] wrote, [load_config] reads back: when the file
    can be written and [json.load] reads the tree [json.dump] printed, a
    load after a save restores the saved tree and leaves the disk alone. *)
Theorem save_then_load_restores (self : Config.t) (stale : pyval) (d : disk) :
  Config.config_file self ∉ readonly d →
  json_loads (json_dumps false (Config._config self))
  = Some (Config._config self) →
  Config.load_config (Config.Make (Config.config_file self) stale)
    (Config.save_config self d)
  = (self, Config.save_config self d).
Proof.
  intros Hw Hcodec. destruct self as [file tree]. simpl in *.
  unfold Config.save_config, write_text. simpl.
  rewrite decide_False by done.
  unfold Config.load_config, path_exists, read_text. simpl.
  rewrite lookup_insert_eq.
  rewrite bool_decide_eq_true_2 by by eexists.
  simpl. by rewrite Hcodec.
Qed.

(** X6: a first start is stable: when the configuration file is absent
    and can be written, [Config(file)] yields the default tree and creates
    the file; starting again yields the same object and leaves the disk as
    the first start left it. *)
Theorem first_start_is_stable (file : string) (d : disk) :
  files d !! file = None →
  file ∉ readonly d →
  json_loads (json_dumps false Config._get_default_config)
  = Some Config._get_default_config →
  Config._config (fst (Config.init file d)) = Config._get_default_config
  ∧ files (snd (Config.init file d)) !! file
    = Some (json_dumps false Config._get_default_config)
  ∧ Config.init file (snd (Config.init file d)) = Config.init file d.
Proof.
  intros Habsent Hw Hcodec.
  assert (Config.init file d
          = (Config.Make file Config._get_default_config,
             Disk (<[file := json_dumps false Config._get_default_config]>
                     (files d)) (readonly d))) as ->.
  { unfold Config.init, Config.load_config, path_exists. simpl.
    rewrite Habsent.
    rewrite bool_decide_eq_false_2 by (by intros [? ?]).
    unfold Config.save_config, write_text. simpl.
    by rewrite decide_False by done. }
  simpl. split; [done|]. split; [by rewrite lookup_insert_eq|].
  unfold Config.init, Config.load_config, path_exists, read_text. simpl.
  rewrite lookup_insert_eq.
  rewrite bool_decide_eq_true_2 by by eexists.
  simpl. by rewrite Hcodec.
Qed.

End MoreConfigProperties.

(** * Properties of [manage_config.py] *)

Lemma digit_lower_char (c : ascii) :
  Str.is_digit_char c = true →
  Str.lower_char c ≠ "t"%char ∧ Str.lower_char c ≠ "f"%char.
Proof.
  destruct c as [[] [] [] [] [] [] [] []]; cbv; intros Hd;
    try discriminate Hd; split; discriminate.
Qed.

Lemma dotted_digits_not_bool (s : string) :
  Str.isdigit (Str.remove_char "." s) = true →
  bool_decide (Str.lower s ∈ ["true"; "false"]) = false.
Proof.
  intros Hd. apply bool_decide_eq_false_2. intros Hin.
  destruct s as [|c s]; [by set_unfold; naive_solver|].
  assert (Str.lower_char c = "t"%char ∨ Str.lower_char c = "f"%char) as Hc.
  { cbn [Str.lower Str.map_chars] in Hin. set_unfold.
    destruct Hin as [Heq|[Heq|[]]]; injection Heq; auto. }
  cbn [Str.remove_char] in Hd. destruct (decide (c = "."%char)) as [->|_].
  - destruct Hc as [Hc|Hc]; discriminate Hc.
  - cbn [Str.isdigit Str.all_digits] in Hd.
    apply andb_true_iff in Hd as [Hd _].
    destruct (digit_lower_char c Hd). by destruct Hc.
Qed.

(** [get] of the key a [set] bound, with no environment override. *)
Lemma get_after_set `{PyRuntime} (env : gmap string string)
    (self self' : Config.t) (key : string) (value dflt : pyval) :
  Config.set self key value = Ok self' →
  env !! Config.env_key key = None →
  Config.get env self' key dflt = value.
Proof.
  intros Hset Henv. destruct (set_ok_inv _ _ _ _ Hset) as (d & Hd & Hb).
  destruct (set_open self d key value Hd Hb) as (d' & Hset' & Hleaf & _).
  rewrite Hset in Hset'. injection Hset' as ->.
  unfold Config.get. rewrite Henv. simpl. by apply lookup_path_find.
Qed.

Section ManageProperties.
Context `{PyRuntime}.

(** X7: [set_config] keeps a value with a leading sign as text: neither
    [isdigit] test accepts the sign, so ["-5"] is stored as the string
    ["-5"], not as a number. *)
Theorem cli_signed_value_stays_text (rest : string) :
  Manage.convert_value (String "-" rest) = Ok (VStr (String "-" rest))
  ∧ Manage.convert_value (String "+" rest) = Ok (VStr (String "+" rest)).
Proof.
  unfold Manage.convert_value. split.
  - rewrite bool_decide_eq_false_2; [done|].
    cbn [Str.lower Str.map_chars]. set_unfold. by intros [?|[?|[]]].
  - rewrite bool_decide_eq_false_2; [done|].
    cbn [Str.lower Str.map_chars]. set_unfold. by intros [?|[?|[]]].
Qed.

(** X8: [set_config] raises on digits with dots that [float] rejects
    (such as ["1.2.3"]): the [ValueError] is not caught, and nothing is set
    or saved. *)
Theorem cli_dotted_digits_raise (self : Config.t) (d : disk)
    (key value : string) :
  Str.isdigit value = false →
  Str.isdigit (Str.remove_char "." value) = true →
  py_float value = None →
  Manage.set_config self d key value = Raise (OtherError "ValueError").
Proof.
  intros Hint Hdots Hfloat. unfold Manage.set_config, Manage.convert_value.
  rewrite (dotted_digits_not_bool value Hdots).
  by rewrite Hint, Hdots, Hfloat.
Qed.

(** X9: when [set_config] returns, the instance answers [get] of the key
    (with no environment override) with the converted value, and the disk
    is the one [save_config] of that instance leaves. *)
Theorem cli_set_config_stores_converted (env : gmap string string)
    (self self' : Config.t) (d d' : disk) (key value : string) (dflt : pyval) :
  Manage.set_config self d key value = Ok (self', d') →
  env !! Config.env_key key = None →
  Manage.convert_value value = Ok (Config.get env self' key dflt)
  ∧ d' = Config.save_config self' d.
Proof.
  unfold Manage.set_config. intros Hrun Henv.
  destruct (Manage.convert_value value) as [v|]; [|discriminate].
  simpl in Hrun.
  destruct (Config.set self key v) as [s1|] eqn:Hset; [|discriminate].
  simpl in Hrun. injection Hrun as <- <-.
  by rewrite (get_after_set env self s1 key v dflt Hset Henv).
Qed.

(** X10: [reset_config] keeps the old file as a backup: when
    [config.json] exists and can be written, afterwards
    [config.json.backup] holds the old content, [config.json] holds the
    default tree and the new instance has the default tree. *)
Theorem reset_keeps_backup (d : disk) (old : string) :
  files d !! "config.json" = Some old →
  "config.json" ∉ readonly d →
  Config._config (fst (Manage.reset_config d)) = Config._get_default_config
  ∧ files (snd (Manage.reset_config d)) !! "config.json.backup" = Some old
  ∧ files (snd (Manage.reset_config d)) !! "config.json"
    = Some (json_dumps false Config._get_default_config).
Proof.
  intros Hold Hw.
  assert (Manage.reset_config d
          = (Config.Make "config.json" Config._get_default_config,
             Disk (<["config.json" :=
                       json_dumps false Config._get_default_config]>
                     (<["config.json.backup" := old]>
                        (delete "config.json" (files d))))
                  (readonly d))) as ->.
  { unfold Manage.reset_config, Manage.rename, path_exists.
    rewrite Hold. rewrite bool_decide_eq_true_2 by by eexists.
    unfold Config.init, Config.load_config, path_exists. simpl.
    rewrite lookup_insert_ne by done. rewrite lookup_delete_eq.
    rewrite bool_decide_eq_false_2 by (by intros [? ?]).
    unfold Config.save_config, write_text. simpl.
    by rewrite decide_False by done. }
  simpl. split; [done|].
  rewrite lookup_insert_ne by done. by rewrite !lookup_insert_eq.
Qed.

End ManageProperties.

(** * Further properties of [main.py] *)

Lemma prefix_app (p x : string) : String.prefix p (p +:+ x) = true.
Proof.
  induction p as [|c p IH]; [by destruct x|].
  change (String c p +:+ x) with (String c (p +:+ x)). simpl.
  by destruct (ascii_dec c c).
Qed.

Lemma rev_app_app (a b c : string) :
  String.rev_app (a +:+ b) c = String.rev_app b (String.rev_app a c).
Proof.
  revert c. induction a as [|x a IH]; intros c; [done|].
  change (String x a +:+ b) with (String x (a +:+ b)). simpl. apply IH.
Qed.

Lemma rev_app_nil (b c : string) :
  String.rev_app b c = String.rev_app b "" +:+ c.
Proof.
  revert c. induction b as [|x b IH]; intros c; [done|]. simpl.
  rewrite (IH (String x c)), (IH (String x "")).
  generalize (String.rev_app b ""). intros r.
  induction r as [|y r IHr]; [done|].
  change (String y r +:+ String x c) with (String y (r +:+ String x c)).
  change ((String y r +:+ String x "") +:+ c)
    with (String y ((r +:+ String x "") +:+ c)).
  by rewrite IHr.
Qed.

Lemma endswith_app (p s : string) : Str.endswith p (s +:+ p) = true.
Proof.
  unfold Str.endswith, String.rev. rewrite rev_app_app.
  rewrite (rev_app_nil p (String.rev_app s "")). apply prefix_app.
Qed.

Lemma glob_json_spec (dir : updir) (name : string) :
  name ∈ Main.glob_json dir
  ↔ Str.endswith ".json" name = true ∧ is_Some (dir !! name).
Proof.
  unfold Main.glob_json. rewrite list_elem_of_In, filter_In.
  rewrite <- list_elem_of_In, list_elem_of_fmap. split.
  - intros [[[k c] [-> Hin]] Hend]. split; [done|].
    apply elem_of_map_to_list in Hin. by eexists.
  - intros [Hend [c Hc]]. split; [|done].
    exists (name, c). split; [done|]. by apply elem_of_map_to_list.
Qed.

Lemma glob_json_NoDup (dir : updir) : NoDup (Main.glob_json dir).
Proof.
  unfold Main.glob_json. apply NoDup_ListNoDup, List.NoDup_filter.
  apply NoDup_ListNoDup, NoDup_fst_map_to_list.
Qed.

Lemma NoDup_all_equal {A} (l : list A) (a : A) :
  NoDup l → (∀ x, x ∈ l ↔ x = a) → l = [a].
Proof.
  intros Hnd Hall. destruct l as [|x l].
  - pose proof (proj2 (Hall a) eq_refl) as Hin. by inversion Hin.
  - assert (x = a) as -> by (apply Hall; left).
    destruct l as [|y l]; [done|].
    assert (y = a) as -> by (apply Hall; right; left).
    apply NoDup_cons in Hnd as [Hnin _]. destruct Hnin. left.
Qed.

Section MoreMainProperties.
Context `{R : PyRuntime}.
Variable env : gmap string string.
Variable config : Config.t.

(** What [upload_file] does with a file that has a name. *)
Lemma upload_file_run (file_id now filename body : string) (dir : updir) :
  filename ≠ "" →
  Main.upload_file file_id now (Some filename) body dir
  = (Ok (VDict [("message", VStr "File uploaded successfully");
                ("file_id", VStr file_id)]),
     <[file_id +:+ ".json" :=
         json_dumps true (VDict (upload_metadata file_id now filename body))]>
       (<[file_id +:+ path_suffix filename := body]> dir)).
Proof. intros Hname. unfold Main.upload_file. by destruct filename. Qed.

Lemma uploaded_summary (file_id now filename body : string) :
  json_loads (json_dumps true
                (VDict (upload_metadata file_id now filename body)))
  = Some (VDict (upload_metadata file_id now filename body)) →
  Main.file_summary
    (json_dumps true (VDict (upload_metadata file_id now filename body)))
  = Ok (upload_summary file_id now filename body).
Proof.
  intros Hcodec. unfold Main.file_summary, Main.loads. by rewrite Hcodec.
Qed.

(** X11: an upload is listed: into a directory holding no sidecar, when
    the stored name is not itself a [.json] name and [json.loads] reads the
    sidecar [json.dumps] printed, [list_files] afterwards returns exactly
    one summary, carrying the identifier, the original name, the time and
    the size of the upload. *)
Theorem upload_then_list (file_id now filename body : string) (dir : updir) :
  filename ≠ "" →
  Main.glob_json dir = [] →
  Str.endswith ".json" (file_id +:+ path_suffix filename) = false →
  json_loads (json_dumps true
                (VDict (upload_metadata file_id now filename body)))
  = Some (VDict (upload_metadata file_id now filename body)) →
  Main.list_files
    (snd (Main.upload_file file_id now (Some filename) body dir))
  = Ok [upload_summary file_id now filename body].
Proof.
  intros Hname Hnone Hext Hcodec. rewrite upload_file_run by done. simpl.
  unfold Main.list_files.
  rewrite (NoDup_all_equal _ (file_id +:+ ".json") (glob_json_NoDup _)).
  - simpl. rewrite lookup_insert_eq. simpl.
    by rewrite uploaded_summary.
  - intros k. rewrite glob_json_spec. split.
    + intros [Hend Hsome].
      destruct (decide (k = file_id +:+ ".json")) as [|Hk1]; [done|].
      rewrite lookup_insert_ne in Hsome by done.
      destruct (decide (k = file_id +:+ path_suffix filename)) as [->|Hk2];
        [by rewrite Hext in Hend|].
      rewrite lookup_insert_ne in Hsome by done.
      assert (k ∈ Main.glob_json dir) as Hin by by apply glob_json_spec.
      rewrite Hnone in Hin. by inversion Hin.
    + intros ->. split; [apply endswith_app|].
      rewrite lookup_insert_eq. by eexists.
Qed.

(** X12: an upload can be downloaded: when [json.loads] reads the sidecar
    back, [download_file] of the new identifier serves the stored entry
    under the original file name, and unless the extension is [.json] that
    entry holds the uploaded content. *)
Theorem upload_then_download (file_id now filename body : string)
    (dir : updir) :
  filename ≠ "" →
  json_loads (json_dumps true
                (VDict (upload_metadata file_id now filename body)))
  = Some (VDict (upload_metadata file_id now filename body)) →
  Main.download_file
    (snd (Main.upload_file file_id now (Some filename) body dir)) file_id
  = Ok {| Main.path := file_id +:+ path_suffix filename;
          Main.filename := VStr filename;
          Main.media_type := "application/octet-stream" |}
  ∧ (path_suffix filename ≠ ".json" →
     snd (Main.upload_file file_id now (Some filename) body dir)
       !! (file_id +:+ path_suffix filename) = Some body).
Proof.
  intros Hname Hcodec. rewrite upload_file_run by done. simpl. split.
  - unfold Main.download_file, Main.read_metadata, Main.loads.
    rewrite lookup_insert_eq, Hcodec. simpl.
    rewrite bool_decide_eq_true_2; [done|].
    destruct (decide (file_id +:+ ".json" = file_id +:+ path_suffix filename))
      as [<-|Hne].
    + rewrite lookup_insert_eq. by eexists.
    + rewrite lookup_insert_ne, lookup_insert_eq by done. by eexists.
  - intros Hext. rewrite lookup_insert_ne, lookup_insert_eq; [done|].
    intros Heq. by apply String.app_inj in Heq.
Qed.

(** X13: an identifier without a sidecar is not found: [download_file],
    [get_editor_config] and [get_preview_config] raise the 404 exception,
    and so does [delete_file], which leaves the directory as it was. *)
Theorem missing_sidecar_is_not_found (t : Q) (dir : updir)
    (file_id : string) :
  dir !! (file_id +:+ ".json") = None →
  Main.download_file dir file_id = Raise (HTTPException 404 "File not found")
  ∧ Main.get_editor_config env config t dir file_id
    = Raise (HTTPException 404 "File not found")
  ∧ Main.get_preview_config env config t dir file_id
    = Raise (HTTPException 404 "File not found")
  ∧ Main.delete_file file_id dir
    = (Raise (HTTPException 404 "File not found"), dir).
Proof.
  intros Hnone.
  unfold Main.download_file, Main.get_editor_config, Main.get_preview_config,
    Main.read_metadata, Main.delete_file, io_bind, io_exists.
  rewrite Hnone. by repeat split.
Qed.

(** X14: deleting what was just uploaded restores the directory: when the
    two names were free, the extension is not [.json] and [json.loads]
    reads the sidecar back, [delete_file] after [upload_file] returns its
    message and the directory is the one before the upload. *)
Theorem upload_then_delete_restores (file_id now filename body : string)
    (dir : updir) :
  filename ≠ "" →
  path_suffix filename ≠ ".json" →
  dir !! (file_id +:+ path_suffix filename) = None →
  dir !! (file_id +:+ ".json") = None →
  json_loads (json_dumps true
                (VDict (upload_metadata file_id now filename body)))
  = Some (VDict (upload_metadata file_id now filename body)) →
  Main.delete_file file_id
    (snd (Main.upload_file file_id now (Some filename) body dir))
  = (Ok (VDict [("message", VStr "File deleted successfully");
                ("file_id", VStr file_id)]), dir).
Proof.
  intros Hname Hext Hfree1 Hfree2 Hcodec. rewrite upload_file_run by done.
  assert (file_id +:+ path_suffix filename ≠ file_id +:+ ".json") as Hne
    by (intros Heq; by apply String.app_inj in Heq).
  unfold Main.delete_file, Main.loads, io_bind, io_exists, io_read, io_lift,
    io_unlink, io_ret. simpl.
  run_dir. rewrite Hcodec. run_dir.
  f_equal. apply map_eq. intros i.
  destruct (decide (i = file_id +:+ ".json")) as [->|Hi1];
    [by rewrite lookup_delete_eq|].
  rewrite lookup_delete_ne by done.
  destruct (decide (i = file_id +:+ path_suffix filename)) as [->|Hi2];
    [by rewrite lookup_delete_eq|].
  by rewrite lookup_delete_ne, !lookup_insert_ne by done.
Qed.

(** X15: a sidecar whose stored binary is gone can still be deleted: when
    the stored name it records is a plain entry name (not empty, without a
    slash, neither [.] nor [..]) and the directory has no such entry,
    [delete_file] returns its message and removes the sidecar, nothing
    else. *)
Theorem delete_without_binary (dir : updir) (file_id content : string)
    (d : pydict) (stored : string) :
  dir !! (file_id +:+ ".json") = Some content →
  json_loads content = Some (VDict d) →
  dict_get "stored_name" d = Some (VStr stored) →
  plain_name stored = true →
  dir !! stored = None →
  Main.delete_file file_id dir
  = (Ok (VDict [("message", VStr "File deleted successfully");
                ("file_id", VStr file_id)]),
     delete (file_id +:+ ".json") dir).
Proof.
  intros Hdir Hjson Hstored _ Hgone.
  unfold Main.delete_file, Main.loads, io_bind, io_exists, io_read, io_lift,
    io_unlink, io_ret.
  rewrite Hdir. run_dir. rewrite Hdir, Hjson. simpl. rewrite Hstored. simpl.
  rewrite Hgone. run_dir. by rewrite Hdir.
Qed.

(** X16: when the stored name recorded in a sidecar is the sidecar's own
    name (what an upload with extension [.json] records), [delete_file]
    unlinks that entry as the binary and then raises [FileNotFoundError]
    on unlinking it as the sidecar: the entry is gone and the request
    fails. *)
Theorem delete_raises_when_binary_is_sidecar (dir : updir)
    (file_id content : string) (d : pydict) :
  dir !! (file_id +:+ ".json") = Some content →
  json_loads content = Some (VDict d) →
  dict_get "stored_name" d = Some (VStr (file_id +:+ ".json")) →
  Main.delete_file file_id dir
  = (Raise FileNotFoundError, delete (file_id +:+ ".json") dir).
Proof.
  intros Hdir Hjson Hstored.
  unfold Main.delete_file, Main.loads, io_bind, io_exists, io_read, io_lift,
    io_unlink, io_ret.
  rewrite Hdir. run_dir. rewrite Hdir, Hjson. simpl. rewrite Hstored. simpl.
  rewrite Hdir. run_dir. rewrite Hdir. by run_dir.
Qed.

Lemma delete_file_ok_inv (dir dir' : updir) (file_id : string) (r : pyval) :
  Main.delete_file file_id dir = (Ok r, dir') →
  dir' !! (file_id +:+ ".json") = None.
Proof.
  unfold Main.delete_file, Main.loads, io_bind, io_exists, io_read, io_lift,
    io_unlink, io_ret, io_raise.
  intros Hrun. repeat (case_match; simplify_eq/=); apply lookup_delete_eq.
Qed.

(** X17: after a [delete_file] that returned, the identifier is gone:
    [download_file] on the resulting directory raises the 404 exception. *)
Theorem download_after_delete (dir dir' : updir) (file_id : string)
    (r : pyval) :
  Main.delete_file file_id dir = (Ok r, dir') →
  Main.download_file dir' file_id = Raise (HTTPException 404 "File not found").
Proof.
  intros Hrun. unfold Main.download_file, Main.read_metadata.
  by rewrite (delete_file_ok_inv _ _ _ _ Hrun).
Qed.

(** Where the save step of the callback leaves the directory. *)
Lemma save_document_cases (now file_id body : string) (dir : updir) :
  snd (Main.save_document now file_id body dir) = dir
  ∨ ∃ content d stored,
      dir !! (file_id +:+ ".json") = Some content
      ∧ json_loads content = Some (VDict d)
      ∧ dict_get "stored_name" d = Some (VStr stored)
      ∧ Main.save_document now file_id body dir
        = (Ok tt,
           <[file_id +:+ ".json" :=
               json_dumps true
                 (VDict (dict_set "last_modified" (VStr now) d))]>
             (<[stored := body]> dir)).
Proof.
  unfold Main.save_document, Main.loads, io_bind, io_exists, io_read, io_lift,
    io_write, io_ret.
  destruct (dir !! (file_id +:+ ".json")) as [content|] eqn:Hdir.
  - rewrite bool_decide_eq_true_2 by by eexists. rewrite Hdir.
    destruct (json_loads content) as [[| | | | | |d]|] eqn:Hjson;
      simpl; try by left.
    destruct (dict_get "stored_name" d) as [[| | | |stored| |]|] eqn:Hst;
      simpl; try by left.
    right. by exists content, d, stored.
  - left. by rewrite bool_decide_eq_false_2 by (by intros [? ?]).
Qed.

(** Where the status branch leaves the directory. *)
Lemma handle_status_cases (fetch : pyval → result (Z * string))
    (now file_id : string) (request_data : pydict) (dir : updir) :
  snd (Main.handle_status fetch now file_id request_data dir) = dir
  ∨ (eq_two (default (VInt 0) (dict_get "status" request_data)) = true
     ∧ truthy (default VNone (dict_get "url" request_data)) = true
     ∧ ∃ body,
         fetch (default VNone (dict_get "url" request_data)) = Ok (200, body)
         ∧ snd (Main.handle_status fetch now file_id request_data dir)
           = snd (Main.save_document now file_id body dir)).
Proof.
  unfold Main.handle_status.
  destruct (eq_two _) eqn:Htwo; [|by left].
  destruct (truthy _) eqn:Hurl; [|by left].
  unfold io_bind, io_lift, io_ret.
  destruct (fetch _) as [[code body]|e] eqn:Hfetch; [|by left].
  simpl. destruct (code =? 200) eqn:Hcode.
  - apply Z.eqb_eq in Hcode as ->. right. repeat (split; [done|]).
    exists body. split; [done|].
    by destruct (Main.save_document now file_id body dir) as [[?|?] ?].
  - by left.
Qed.

Lemma handle_status_response (fetch : pyval → result (Z * string))
    (now file_id : string) (request_data : pydict) (dir : updir) (v : pyval) :
  fst (Main.handle_status fetch now file_id request_data dir) = Ok v →
  v = callback_ok.
Proof.
  unfold Main.handle_status. unfold io_bind at 1.
  match goal with |- context [match ?m dir with _ => _ end] =>
    destruct (m dir) as [[?|?] ?] end; simpl; [|done].
  by intros [= <-].
Qed.

(** The callback's directory is the given one or the one the status
    branch leaves; its answer is the invalid-token envelope, or what the
    status branch answers, an exception turned into an envelope. *)
Lemma callback_cases (fetch : pyval → result (Z * string))
    (now file_id : string) (request_data : pydict) (dir : updir) :
  Main.onlyoffice_callback env config fetch now file_id request_data dir
  = (callback_invalid_token, dir)
  ∨ Main.onlyoffice_callback env config fetch now file_id request_data dir
    = (match fst (Main.handle_status fetch now file_id request_data dir) with
       | Ok response => response
       | Raise e => VDict [("error", VInt 1); ("message", VStr (exn_str e))]
       end,
       snd (Main.handle_status fetch now file_id request_data dir)).
Proof.
  unfold Main.onlyoffice_callback, Main.callback_body.
  destruct (_ && _).
  - destruct (rbind _ _); [right|by left].
    by destruct (Main.handle_status _ _ _ _ _) as [[?|?] ?].
  - right. by destruct (Main.handle_status _ _ _ _ _) as [[?|?] ?].
Qed.

(** Every way the callback can leave the directory. *)
Lemma callback_dir_cases (fetch : pyval → result (Z * string))
    (now file_id : string) (request_data : pydict) (dir : updir) :
  snd (Main.onlyoffice_callback env config fetch now file_id request_data dir)
  = dir
  ∨ (eq_two (default (VInt 0) (dict_get "status" request_data)) = true
     ∧ truthy (default VNone (dict_get "url" request_data)) = true
     ∧ ∃ body content d stored,
         fetch (default VNone (dict_get "url" request_data)) = Ok (200, body)
         ∧ dir !! (file_id +:+ ".json") = Some content
         ∧ json_loads content = Some (VDict d)
         ∧ dict_get "stored_name" d = Some (VStr stored)
         ∧ snd (Main.onlyoffice_callback env config fetch now file_id
                  request_data dir)
           = <[file_id +:+ ".json" :=
                 json_dumps true
                   (VDict (dict_set "last_modified" (VStr now) d))]>
               (<[stored := body]> dir)).
Proof.
  destruct (callback_cases fetch now file_id request_data dir) as [->| ->];
    [by left|]. simpl.
  destruct (handle_status_cases fetch now file_id request_data dir)
    as [->|(Htwo & Hurl & body & Hfetch & ->)]; [by left|].
  destruct (save_document_cases now file_id body dir)
    as [->|(content & d & stored & Hdir & Hjson & Hst & ->)]; [by left|].
  right. repeat (split; [done|]). by exists body, content, d, stored.
Qed.

(** X18: the callback always answers an envelope: [{"error": 0}], or a
    dictionary whose [error] is 1 and whose [message] is a string. *)
Theorem callback_answers_envelope (fetch : pyval → result (Z * string))
    (now file_id : string) (request_data : pydict) (dir : updir) :
  fst (Main.onlyoffice_callback env config fetch now file_id request_data dir)
  = callback_ok
  ∨ ∃ message,
      fst (Main.onlyoffice_callback env config fetch now file_id
             request_data dir)
      = VDict [("error", VInt 1); ("message", VStr message)].
Proof.
  destruct (callback_cases fetch now file_id request_data dir) as [->| ->].
  - right. by eexists.
  - simpl.
    destruct (fst (Main.handle_status _ _ _ _ _)) as [v|e] eqn:Hr.
    + left. by apply handle_status_response in Hr.
    + right. by eexists.
Qed.

(** X19: the callback writes at most two entries.  When the stored name
    the sidecar of the identifier records, if it records one, is a plain
    entry name (not empty, without a slash, neither [.] nor [..]), an entry
    with a plain name that is neither the sidecar nor that stored name is
    after the callback what it was before. *)
Theorem callback_touches_only_binary_and_sidecar
    (fetch : pyval → result (Z * string)) (now file_id : string)
    (request_data : pydict) (dir : updir) (name : string) :
  plain_name name = true →
  name ≠ file_id +:+ ".json" →
  (∀ content d stored,
     dir !! (file_id +:+ ".json") = Some content →
     json_loads content = Some (VDict d) →
     dict_get "stored_name" d = Some (VStr stored) →
     plain_name stored = true ∧ stored ≠ name) →
  snd (Main.onlyoffice_callback env config fetch now file_id request_data dir)
    !! name
  = dir !! name.
Proof.
  intros _ Hname Hstored.
  destruct (callback_dir_cases fetch now file_id request_data dir)
    as [->|(_ & _ & body & content & d & stored & _ & Hdir & Hjson & Hst & ->)];
    [done|].
  rewrite lookup_insert_ne by done. rewrite lookup_insert_ne; [done|].
  by destruct (Hstored content d stored Hdir Hjson Hst).
Qed.

(** X20: the callback changes nothing unless everything lines up: when
    the status is not 2, or the [url] is missing or empty, or the fetch
    does not answer 200, or the identifier has no sidecar, the directory
    after the callback is the directory before. *)
Theorem callback_no_mutation_unless_saved
    (fetch : pyval → result (Z * string)) (now file_id : string)
    (request_data : pydict) (dir : updir) :
  eq_two (default (VInt 0) (dict_get "status" request_data)) = false
  ∨ truthy (default VNone (dict_get "url" request_data)) = false
  ∨ (∀ body,
       fetch (default VNone (dict_get "url" request_data)) ≠ Ok (200, body))
  ∨ dir !! (file_id +:+ ".json") = None →
  snd (Main.onlyoffice_callback env config fetch now file_id request_data dir)
  = dir.
Proof.
  intros Hwhy.
  destruct (callback_dir_cases fetch now file_id request_data dir)
    as [->|(Htwo & Hurl & body & content & d & stored & Hf & Hdir & _)];
    [done|].
  destruct Hwhy as [Hno|[Hno|[Hno|Hno]]].
  - by rewrite Hno in Htwo.
  - by rewrite Hno in Hurl.
  - by destruct (Hno body).
  - by rewrite Hno in Hdir.
Qed.

Lemma sign_config_inv (cfg signed_cfg : pydict) :
  Main.sign_config env config cfg = Ok (VDict signed_cfg) →
  signed_cfg = cfg
  ∨ ∃ signed,
      jwt_encode (VDict cfg) (Config.onlyoffice_secret env config) = Ok signed
      ∧ signed_cfg = dict_set "token" (VStr signed) cfg.
Proof.
  unfold Main.sign_config, Main.generate_jwt_token.
  destruct (_ && _); [|intros [= <-]; by left].
  destruct (jwt_encode _ _) as [signed|]; [|done]. simpl.
  destruct (Main.slice10 _); [|done]. simpl.
  intros [= <-]. right. by exists signed.
Qed.

(** X21: the token signs the whole configuration: when
    [get_editor_config] or [get_preview_config] returns a configuration
    with a [token] field, the token is what [jwt.encode] made, under the
    configured secret, of that same configuration without the token. *)
Theorem token_signs_whole_config (t : Q) (dir : updir) (file_id : string)
    (cfg : pydict) (token : pyval) :
  Main.get_editor_config env config t dir file_id = Ok (VDict cfg)
  ∨ Main.get_preview_config env config t dir file_id = Ok (VDict cfg) →
  dict_get "token" cfg = Some token →
  ∃ payload signed,
    token = VStr signed
    ∧ cfg = dict_set "token" (VStr signed) payload
    ∧ dict_get "token" payload = None
    ∧ jwt_encode (VDict payload) (Config.onlyoffice_secret env config)
      = Ok signed.
Proof.
  assert (∀ payload,
            dict_get "token" payload = None →
            Main.sign_config env config payload = Ok (VDict cfg) →
            dict_get "token" cfg = Some token →
            ∃ payload signed,
              token = VStr signed
              ∧ cfg = dict_set "token" (VStr signed) payload
              ∧ dict_get "token" payload = None
              ∧ jwt_encode (VDict payload)
                  (Config.onlyoffice_secret env config) = Ok signed)
    as Hsign.
  { intros payload Hfree Hrun Htoken.
    destruct (sign_config_inv _ _ Hrun) as [->|(signed & Henc & ->)].
    - by rewrite Hfree in Htoken.
    - rewrite dict_get_set_eq in Htoken. injection Htoken as <-.
      by exists payload, signed. }
  unfold Main.get_editor_config, Main.get_preview_config.
  intros [Hrun|Hrun] Htoken;
    destruct (Main.read_metadata dir file_id) as [metadata|];
      try discriminate Hrun; simpl in Hrun;
    destruct (py_getitem metadata "original_name") as [name|];
      try discriminate Hrun; simpl in Hrun;
    destruct (Main.suffix_lower name) as [ext|];
      try discriminate Hrun; simpl in Hrun;
    by eapply Hsign; [|exact Hrun|exact Htoken].
Qed.

Lemma insert_desc_perm (x : pyval) (sorted out : list pyval) :
  Main.insert_desc x sorted = Ok out → out ≡ₚ x :: sorted.
Proof.
  revert out. induction sorted as [|y rest IH]; intros out; simpl.
  - by intros [= <-].
  - destruct (py_getitem y "upload_time"); [|done]. simpl.
    destruct (py_getitem x "upload_time"); [|done]. simpl.
    destruct (py_lt _ _) as [[]|]; [by intros [= <-]| |done].
    destruct (Main.insert_desc x rest) as [rest'|]; [|done]. simpl.
    intros [= <-]. rewrite (IH rest' eq_refl). apply Permutation_swap.
Qed.

Lemma sorted_desc_perm (files acc out : list pyval) :
  Main.sorted_desc files acc = Ok out → out ≡ₚ files ++ acc.
Proof.
  revert acc out. induction files as [|x files IH]; intros acc out; simpl.
  - by intros [= <-].
  - destruct (Main.insert_desc x acc) as [acc'|] eqn:Hins; [|done]. simpl.
    intros Hrun. rewrite (IH _ _ Hrun).
    rewrite (insert_desc_perm _ _ _ Hins).
    by rewrite Permutation_middle.
Qed.

Lemma list_loop_inv (dir : updir) (names : list string)
    (acc files : list pyval) :
  Main.list_loop dir names acc = Ok files →
  ∃ new,
    files = acc ++ new
    ∧ Forall2 (fun name summary =>
                 ∃ content, dir !! name = Some content
                            ∧ Main.file_summary content = Ok summary)
        names new.
Proof.
  revert acc. induction names as [|n names IH]; intros acc; simpl.
  - intros [= <-]. exists []. by rewrite app_nil_r.
  - destruct (dir !! n) as [content|] eqn:Hn; [|done]. simpl.
    destruct (Main.file_summary content) as [summary|] eqn:Hs; [|done].
    simpl. intros Hrun. destruct (IH _ Hrun) as (new & -> & Hall).
    exists (summary :: new). rewrite <- app_assoc. split; [done|].
    constructor; [by exists content|done].
Qed.

(** X22: a listing that returns lists every sidecar once: the result of
    [list_files] is a rearrangement of the summaries of all the [.json]
    entries of the directory, one for each. *)
Theorem list_files_lists_each_sidecar_once (dir : updir)
    (out : list pyval) :
  Main.list_files dir = Ok out →
  ∃ files,
    out ≡ₚ files
    ∧ Forall2 (fun name summary =>
                 ∃ content, dir !! name = Some content
                            ∧ Main.file_summary content = Ok summary)
        (Main.glob_json dir) files.
Proof.
  unfold Main.list_files.
  destruct (Main.list_loop dir (Main.glob_json dir) []) as [files|] eqn:Hloop;
    [|done].
  simpl. intros Hsort. exists files. split.
  - rewrite (sorted_desc_perm _ _ _ Hsort). by rewrite app_nil_r.
  - by destruct (list_loop_inv _ _ _ _ Hloop) as (new & -> & Hall).
Qed.

End MoreMainProperties.

Lemma get_other_after_set `{PyRuntime} (env : gmap string string)
    (self self' : Config.t) (key key' : string) (value dflt : pyval) :
  Config.set self key value = Ok self' →
  diverges (Str.split "." key') (Str.split "." key) = true →
  Config.get env self' key' dflt = Config.get env self key' dflt.
Proof.
  intros Hset Hdiv. destruct (set_ok_inv _ _ _ _ Hset) as (d & Hd & Hb).
  destruct (set_open self d key value Hd Hb) as (d' & Hset' & _ & Hframe).
  rewrite Hset in Hset'. injection Hset' as ->.
  unfold Config.get. destruct (env !! Config.env_key key'); [done|].
  rewrite !lookup_path_default. simpl. rewrite Hd. by rewrite Hframe.
Qed.

(** X23: the client configuration does not depend on the signing secret:
    after [set("onlyoffice.secret", v)], [get_client_config] answers what it
    answered before. *)
Theorem client_config_ignores_secret `{PyRuntime} (env : gmap string string)
    (config config' : Config.t) (v : pyval) :
  Config.set config "onlyoffice.secret" v = Ok config' →
  Main.get_client_config env config' = Main.get_client_config env config.
Proof.
  intros Hset.
  unfold Main.get_client_config, Config.server_url, Config.server_host,
    Config.server_port, Config.onlyoffice_api_js_url,
    Config.onlyoffice_server_url, Config.allowed_extensions.
  by repeat rewrite (get_other_after_set env config config'
                       "onlyoffice.secret" _ v _ Hset) by reflexivity.
Qed.

(** X24: a verified token only opens the gate: when the request carries a
    token that [jwt.decode] accepts, the outcome of the callback is the
    same whatever claims the token decodes to; the handler acts on the
    [status] and [url] of the request body. *)
Theorem callback_ignores_verified_claims `{R : PyRuntime}
    (env : gmap string string) (config : Config.t)
    (fetch : pyval → result (Z * string)) (now file_id : string)
    (request_data : pydict) (dir : updir) (token claims : pyval) :
  dict_get "token" request_data = Some token →
  jwt_decode token (Config.onlyoffice_secret env config) = Ok claims →
  ∀ claims',
    Main.onlyoffice_callback (H := with_decoder R (fun _ _ => Ok claims'))
      env config fetch now file_id request_data dir
    = Main.onlyoffice_callback env config fetch now file_id request_data dir.
Proof.
  intros Htoken Hdecode claims'.
  unfold Main.onlyoffice_callback, Main.callback_body, Main.verify_jwt_token,
    dict_has.
  rewrite Htoken. simpl. rewrite Htoken. simpl. rewrite Hdecode.
  change (Config.get (H := with_decoder R (fun _ _ => Ok claims')))
    with (Config.get (H := R)).
  by destruct (truthy _).
Qed.

Lemma split_parts_no_sep (sep : ascii) (s part : string) :
  part ∈ Str.split sep s → Str.contains_char sep part = false.
Proof.
  revert part. induction s as [|c s IH]; intros part; simpl.
  - intros Hin. apply list_elem_of_singleton in Hin as ->. done.
  - destruct (decide (c = sep)) as [->|Hne].
    + intros Hin. apply elem_of_cons in Hin as [->|Hin]; [done|by apply IH].
    + destruct (Str.split sep s) as [|h t] eqn:Hsplit.
      * intros Hin. apply list_elem_of_singleton in Hin as ->. simpl.
        by rewrite bool_decide_eq_false_2 by done.
      * intros Hin. apply elem_of_cons in Hin as [->|Hin].
        -- simpl. rewrite bool_decide_eq_false_2 by done. simpl.
           apply IH. left.
        -- apply IH. by right.
Qed.

Lemma last_elem_or_default {A} (l : list A) (x : A) :
  List.last l x = x ∨ List.last l x ∈ l.
Proof.
  destruct l as [|a0 l]; [by left|]. right.
  revert a0. induction l as [|b l IH]; intros a0; [left|].
  change (List.last (a0 :: b :: l) x) with (List.last (b :: l) x).
  right. apply IH.
Qed.

Lemma path_name_no_slash (p : string) :
  Str.contains_char "/" (path_name p) = false.
Proof.
  unfold path_name.
  destruct (last_elem_or_default
              (List.filter (fun c => negb (bool_decide (c = "")
                                           || bool_decide (c = ".")))
                 (Str.split "/" p)) "") as [-> | Hin]; [done|].
  apply list_elem_of_In, filter_In in Hin as [Hin _].
  by apply split_parts_no_sep with p, list_elem_of_In.
Qed.

Lemma substring_no_char (c : ascii) (s : string) (i n : nat) :
  Str.contains_char c s = false →
  Str.contains_char c (String.substring i n s) = false.
Proof.
  revert i n. induction s as [|a s IH]; intros i n Hs.
  - by destruct i, n.
  - simpl in Hs. apply orb_false_iff in Hs as [Ha Hs].
    destruct i as [|i]; [destruct n as [|n]|]; simpl; [done| |by apply IH].
    rewrite Ha. by apply IH.
Qed.

Lemma contains_char_app (c : ascii) (a b : string) :
  Str.contains_char c (a +:+ b)
  = Str.contains_char c a || Str.contains_char c b.
Proof.
  induction a as [|x a IH]; [done|].
  change (String x a +:+ b) with (String x (a +:+ b)). simpl.
  by rewrite IH, orb_assoc.
Qed.

(** X25: the client's file name cannot move the stored file: the extension
    taken from it never contains a slash, so when the identifier has none
    the stored name [identifier + extension] names an entry of the upload
    directory itself, and every entry [upload_file] creates or changes has
    a name without a slash. *)
Theorem stored_name_has_no_slash `{PyRuntime} (file_id filename : string) :
  Str.contains_char "/" file_id = false →
  Str.contains_char "/" (path_suffix filename) = false
  ∧ Str.contains_char "/" (file_id +:+ path_suffix filename) = false
  ∧ ∀ now body dir name,
      snd (Main.upload_file file_id now (Some filename) body dir) !! name
      ≠ dir !! name →
      Str.contains_char "/" name = false.
Proof.
  intros Hid.
  assert (Str.contains_char "/" (path_suffix filename) = false) as Hsuffix.
  { unfold path_suffix. destruct (rfind_char "." (path_name filename)); [|done].
    destruct (_ && _); [|done].
    apply substring_no_char, path_name_no_slash. }
  assert (Str.contains_char "/" (file_id +:+ path_suffix filename) = false)
    as Hstored by (by rewrite contains_char_app, Hid, Hsuffix).
  split; [done|]. split; [done|].
  intros now body dir name.
  destruct (decide (filename = "")) as [->|Hname]; [done|].
  rewrite upload_file_run by done. simpl.
  destruct (decide (name = file_id +:+ ".json")) as [->|Hsidecar].
  { intros _. by rewrite contains_char_app, Hid. }
  rewrite lookup_insert_ne by done.
  destruct (decide (name = file_id +:+ path_suffix filename)) as [->|Hbinary];
    [done|].
  by rewrite lookup_insert_ne by done.
Qed.

(** ** Concrete runs of the further properties *)

Lemma get_follows_path_witness :
  Config.get (H := Ref.runtime) ∅ Sample.config "server.host.x"
    (VStr "fallback") = VStr "fallback"
  ∧ Config.get (H := Ref.runtime) ∅ Sample.config "server.port" VNone
    = VInt 8000.
Proof.
  split.
  - rewrite (get_follows_path (H := Ref.runtime) ∅ Sample.config
               "server.host.x" (VStr "fallback")); vm_compute; reflexivity.
  - rewrite (get_follows_path (H := Ref.runtime) ∅ Sample.config
               "server.port" VNone); vm_compute; reflexivity.
Defined.

Lemma set_then_get_witness :
  Config.get (H := Ref.runtime) ∅ Sample.recolored "ui.colors.accent" VNone
  = VStr "teal"
  ∧ Config.get (H := Ref.runtime) ∅ Sample.recolored "ui.title" VNone
    = Config.get (H := Ref.runtime) ∅ Sample.config "ui.title" VNone.
Proof.
  destruct (set_then_get (H := Ref.runtime) ∅ Sample.config Sample.recolored
              "ui.colors.accent" (VStr "teal")) as [Hsame Hother];
    [vm_compute; reflexivity|].
  split.
  - apply Hsame. vm_compute. reflexivity.
  - apply Hother. vm_compute. reflexivity.
Defined.

Lemma set_last_write_wins_witness :
  Config.set Sample.recolored "ui.colors.accent" (VStr "red")
  = Config.set Sample.config "ui.colors.accent" (VStr "red").
Proof.
  apply (set_last_write_wins Sample.config Sample.recolored
           "ui.colors.accent" (VStr "teal") (VStr "red")).
  vm_compute. reflexivity.
Defined.


Lemma save_then_load_restores_witness :
  Config.load_config (H := Ref.runtime) (Config.Make "config.json" VNone)
    (Config.save_config (H := Ref.runtime) Sample.config Sample.blank)
  = (Sample.config,
     Config.save_config (H := Ref.runtime) Sample.config Sample.blank).
Proof.
  apply (save_then_load_restores (H := Ref.runtime) Sample.config VNone
           Sample.blank).
  - apply not_elem_of_empty.
  - vm_compute. reflexivity.
Defined.

Lemma first_start_is_stable_witness :
  Config._config (fst (Config.init (H := Ref.runtime) "config.json"
                         Sample.blank))
  = Config._get_default_config
  ∧ files (snd (Config.init (H := Ref.runtime) "config.json" Sample.blank))
      !! "config.json"
    = Some (Ref.dumps false Config._get_default_config)
  ∧ Config.init (H := Ref.runtime) "config.json"
      (snd (Config.init (H := Ref.runtime) "config.json" Sample.blank))
    = Config.init (H := Ref.runtime) "config.json" Sample.blank.
Proof.
  apply (first_start_is_stable (H := Ref.runtime) "config.json" Sample.blank).
  - reflexivity.
  - apply not_elem_of_empty.
  - vm_compute. reflexivity.
Defined.

Lemma cli_dotted_digits_raise_witness :
  Manage.set_config (H := Ref.runtime) Sample.config Sample.blank
    "server.port" "1.2.3" = Raise (OtherError "ValueError").
Proof.
  apply (cli_dotted_digits_raise (H := Ref.runtime) Sample.config
           Sample.blank "server.port" "1.2.3"); vm_compute; reflexivity.
Defined.

Lemma cli_set_config_stores_converted_witness :
  Manage.convert_value (H := Ref.runtime) "9001"
  = Ok (Config.get (H := Ref.runtime) ∅ (fst Sample.cli_result)
          "server.port" VNone)
  ∧ snd Sample.cli_result
    = Config.save_config (H := Ref.runtime) (fst Sample.cli_result)
        Sample.blank.
Proof.
  apply (cli_set_config_stores_converted (H := Ref.runtime) ∅ Sample.config
           (fst Sample.cli_result) Sample.blank (snd Sample.cli_result)
           "server.port" "9001" VNone); vm_compute; reflexivity.
Defined.

Lemma reset_keeps_backup_witness :
  Config._config (fst (Manage.reset_config (H := Ref.runtime)
                         Sample.configured))
  = Config._get_default_config
  ∧ files (snd (Manage.reset_config (H := Ref.runtime) Sample.configured))
      !! "config.json.backup" = Some "{}"
  ∧ files (snd (Manage.reset_config (H := Ref.runtime) Sample.configured))
      !! "config.json"
    = Some (Ref.dumps false Config._get_default_config).
Proof.
  apply (reset_keeps_backup (H := Ref.runtime) Sample.configured "{}").
  - vm_compute. reflexivity.
  - apply not_elem_of_empty.
Defined.

Lemma upload_then_list_witness :
  Main.list_files (H := Ref.runtime)
    (snd (Main.upload_file (H := Ref.runtime) "0001" "2024-05-01T10:00:00"
            (Some "report.xlsx") "hello" ∅))
  = Ok [upload_summary "0001" "2024-05-01T10:00:00" "report.xlsx" "hello"].
Proof.
  apply (upload_then_list (R := Ref.runtime) "0001" "2024-05-01T10:00:00"
           "report.xlsx" "hello" ∅).
  - discriminate.
  - vm_compute. reflexivity.
  - vm_compute. reflexivity.
  - vm_compute. reflexivity.
Defined.

Lemma upload_then_download_witness :
  Main.download_file (H := Ref.runtime)
    (snd (Main.upload_file (H := Ref.runtime) "0001" "2024-05-01T10:00:00"
            (Some "report.xlsx") "hello" ∅)) "0001"
  = Ok {| Main.path := "0001" +:+ path_suffix "report.xlsx";
          Main.filename := VStr "report.xlsx";
          Main.media_type := "application/octet-stream" |}
  ∧ (path_suffix "report.xlsx" ≠ ".json" →
     snd (Main.upload_file (H := Ref.runtime) "0001" "2024-05-01T10:00:00"
            (Some "report.xlsx") "hello" ∅)
       !! ("0001" +:+ path_suffix "report.xlsx") = Some "hello").
Proof.
  apply (upload_then_download (R := Ref.runtime) "0001" "2024-05-01T10:00:00"
           "report.xlsx" "hello" ∅).
  - discriminate.
  - vm_compute. reflexivity.
Defined.

Lemma missing_sidecar_is_not_found_witness :
  Main.download_file (H := Ref.runtime) Sample.uploaded "0009"
  = Raise (HTTPException 404 "File not found")
  ∧ Main.get_editor_config (H := Ref.runtime) ∅ Sample.config (Qmake 1 1)
      Sample.uploaded "0009" = Raise (HTTPException 404 "File not found")
  ∧ Main.get_preview_config (H := Ref.runtime) ∅ Sample.config (Qmake 1 1)
      Sample.uploaded "0009" = Raise (HTTPException 404 "File not found")
  ∧ Main.delete_file (H := Ref.runtime) "0009" Sample.uploaded
    = (Raise (HTTPException 404 "File not found"), Sample.uploaded).
Proof.
  apply (missing_sidecar_is_not_found (R := Ref.runtime) ∅ Sample.config
           (Qmake 1 1) Sample.uploaded "0009").
  vm_compute. reflexivity.
Defined.

Lemma upload_then_delete_restores_witness :
  Main.delete_file (H := Ref.runtime) "0001"
    (snd (Main.upload_file (H := Ref.runtime) "0001" "2024-05-01T10:00:00"
            (Some "report.xlsx") "hello" ∅))
  = (Ok (VDict [("message", VStr "File deleted successfully");
                ("file_id", VStr "0001")]), ∅).
Proof.
  apply (upload_then_delete_restores (R := Ref.runtime) "0001"
           "2024-05-01T10:00:00" "report.xlsx" "hello" ∅).
  - discriminate.
  - vm_compute. discriminate.
  - reflexivity.
  - reflexivity.
  - vm_compute. reflexivity.
Defined.

Lemma delete_without_binary_witness :
  Main.delete_file (H := Ref.runtime) "0001" Sample.orphan
  = (Ok (VDict [("message", VStr "File deleted successfully");
                ("file_id", VStr "0001")]),
     delete ("0001" +:+ ".json") Sample.orphan).
Proof.
  apply (delete_without_binary (R := Ref.runtime) Sample.orphan "0001"
           Sample.sidecar Sample.metadata "0001.xlsx");
    vm_compute; reflexivity.
Defined.

Lemma delete_raises_when_binary_is_sidecar_witness :
  Main.delete_file (H := Ref.runtime) "0002" Sample.json_uploaded
  = (Raise FileNotFoundError, delete ("0002" +:+ ".json") Sample.json_uploaded).
Proof.
  apply (delete_raises_when_binary_is_sidecar (R := Ref.runtime)
           Sample.json_uploaded "0002"
           (Ref.dumps true (VDict Sample.json_metadata)) Sample.json_metadata);
    vm_compute; reflexivity.
Defined.

Lemma download_after_delete_witness :
  Main.download_file (H := Ref.runtime)
    (snd (Main.delete_file (H := Ref.runtime) "0001" Sample.uploaded)) "0001"
  = Raise (HTTPException 404 "File not found").
Proof.
  apply (download_after_delete (R := Ref.runtime) Sample.uploaded
           (snd (Main.delete_file (H := Ref.runtime) "0001" Sample.uploaded))
           "0001"
           (VDict [("message", VStr "File deleted successfully");
                   ("file_id", VStr "0001")])).
  vm_compute. reflexivity.
Defined.

Lemma callback_touches_only_binary_and_sidecar_witness :
  snd (Main.onlyoffice_callback (H := Ref.runtime) ∅ Sample.config
         Sample.fetch "2024-05-02T08:00:00" "0001" Sample.save_request
         Sample.crowded) !! "notes.txt"
  = Sample.crowded !! "notes.txt".
Proof.
  apply (callback_touches_only_binary_and_sidecar (R := Ref.runtime) ∅
           Sample.config Sample.fetch "2024-05-02T08:00:00" "0001"
           Sample.save_request Sample.crowded "notes.txt").
  - vm_compute. reflexivity.
  - vm_compute. discriminate.
  - intros content d stored Hdir Hjson Hst.
    vm_compute in Hdir. injection Hdir as <-.
    vm_compute in Hjson. injection Hjson as <-.
    vm_compute in Hst. injection Hst as <-.
    split; [vm_compute; reflexivity|vm_compute; discriminate].
Defined.

Lemma callback_no_mutation_unless_saved_witness :
  snd (Main.onlyoffice_callback (H := Ref.runtime) ∅ Sample.config
         Sample.fetch "2024-05-02T08:00:00" "0001" Sample.editing_request
         Sample.uploaded)
  = Sample.uploaded.
Proof.
  apply (callback_no_mutation_unless_saved (R := Ref.runtime) ∅ Sample.config
           Sample.fetch "2024-05-02T08:00:00" "0001" Sample.editing_request
           Sample.uploaded).
  left. vm_compute. reflexivity.
Defined.

Lemma token_signs_whole_config_witness :
  ∃ payload signed,
    Sample.editor_token = VStr signed
    ∧ Sample.editor_cfg = dict_set "token" (VStr signed) payload
    ∧ dict_get "token" payload = None
    ∧ Ref.encode (VDict payload)
        (Config.onlyoffice_secret (H := Ref.runtime) ∅ Sample.config)
      = Ok signed.
Proof.
  apply (token_signs_whole_config (R := Ref.runtime) ∅ Sample.config
           (Qmake 4001 4) Sample.uploaded "0001" Sample.editor_cfg
           Sample.editor_token).
  - left. vm_compute. reflexivity.
  - vm_compute. reflexivity.
Defined.

Lemma list_files_lists_each_sidecar_once_witness :
  ∃ files,
    [upload_summary "0003" "2024-05-03T09:30:00" "slides.pptx" "deck";
     upload_summary "0001" "2024-05-01T10:00:00" "report.xlsx" "hello"]
    ≡ₚ files
    ∧ Forall2 (fun name summary =>
                 ∃ content, Sample.uploaded_twice !! name = Some content
                            ∧ Main.file_summary (H := Ref.runtime) content
                              = Ok summary)
        (Main.glob_json Sample.uploaded_twice) files.
Proof.
  apply (list_files_lists_each_sidecar_once (R := Ref.runtime)
           Sample.uploaded_twice).
  vm_compute. reflexivity.
Defined.

Lemma client_config_ignores_secret_witness :
  Main.get_client_config (H := Ref.runtime) ∅ Sample.rotated
  = Main.get_client_config (H := Ref.runtime) ∅ Sample.config.
Proof.
  apply (client_config_ignores_secret (H := Ref.runtime) ∅ Sample.config
           Sample.rotated (VStr "rotated-secret")).
  vm_compute. reflexivity.
Defined.

Lemma callback_ignores_verified_claims_witness :
  Main.onlyoffice_callback
    (H := with_decoder Ref.runtime (fun _ _ => Ok VNone))
    ∅ Sample.config Sample.fetch "2024-05-02T08:00:00" "0001"
    Sample.signed_request Sample.uploaded
  = Main.onlyoffice_callback (H := Ref.runtime) ∅ Sample.config Sample.fetch
      "2024-05-02T08:00:00" "0001" Sample.signed_request Sample.uploaded.
Proof.
  apply (callback_ignores_verified_claims (R := Ref.runtime) ∅ Sample.config
           Sample.fetch "2024-05-02T08:00:00" "0001" Sample.signed_request
           Sample.uploaded Sample.good_token (VDict []));
    vm_compute; reflexivity.
Defined.

Lemma stored_name_has_no_slash_witness :
  Str.contains_char "/" (path_suffix "../../etc/passwd.txt") = false
  ∧ Str.contains_char "/" ("0001" +:+ path_suffix "../../etc/passwd.txt")
    = false
  ∧ ∀ now body dir name,
      snd (Main.upload_file (H := Ref.runtime) "0001" now
             (Some "../../etc/passwd.txt") body dir) !! name
      ≠ dir !! name →
      Str.contains_char "/" name = false.
Proof.
  apply (stored_name_has_no_slash (H := Ref.runtime) "0001"
           "../../etc/passwd.txt").
  vm_compute. reflexivity.
Defined.
